(** * Nightmare generic test case minimizer: a shallow embedding

    Source: [src/fuzzers/generic_minimizer.py] (Python 2).

    The file models, in the order of the source,
    - the Python primitives the minimizer relies on (exceptions, [int()],
      [str.lower], [str.find], [str.replace], slices, mixed-type ordering);
    - [CGenericMinimizer.read_configuration] and its [CLineMinimizer] override;
    - [CGenericMinimizer.do_try], the byte-diff minimizer;
    - [CLineMinimizer.do_try], the line minimizer;
    and then states the properties of the specification against them.

    Conventions.  A Python exception is a value of [exn], a fallible
    computation returns [res].  Everything outside the process (the parsed
    configuration file, [tempfile.mktemp], [random.randint], the subject's
    exit code, the debugger interfaces, the listing of the crash directory,
    [sha1]) is a field of a [World] record or a section variable, indexed by
    the trial counter so that any sequence of answers can be expressed.  The
    effects of a run that the specification talks about are recorded as a
    list of [event]s; logging, [os.putenv] and the life cycle of the temporary
    file are not recorded. *)

From Stdlib Require Import ZArith Lia Ascii.
From stdpp Require Import base option list gmap strings pretty.

Local Open Scope Z_scope.

(** ** Python exceptions and fallible computations *)

Inductive exn : Type :=
  | Exception (msg : string)      (* [raise Exception(msg)] *)
  | AttributeError
  | KeyError
  | IndexError
  | ValueError
  | ZeroDivisionError.

Inductive res (A : Type) : Type :=
  | Ok (a : A)
  | Raise (e : exn).
Arguments Ok {A} a.
Arguments Raise {A} e.

Global Instance res_ret : MRet res := fun A a => Ok a.
Global Instance res_bind : MBind res := fun A B f m =>
  match m with
  | Ok a => f a
  | Raise e => Raise e
  end.

Global Instance res_fmap : FMap res := fun A B f m =>
  match m with
  | Ok a => Ok (f a)
  | Raise e => Raise e
  end.

(** [try: v = e  except: v = d] *)
Definition try_default {A} (m : res A) (d : A) : A :=
  match m with
  | Ok a => a
  | Raise _ => d
  end.

Definition of_option {A} (o : option A) (e : exn) : res A :=
  match o with
  | Some a => Ok a
  | None => Raise e
  end.

(** ** Python string primitives *)

Module Py.

Definition is_digit (c : ascii) : bool :=
  match Ascii.is_nat c with Some _ => true | None => false end.

Definition lower_char (c : ascii) : ascii :=
  let n := N_of_ascii c in
  if ((65 <=? n) && (n <=? 90))%N then ascii_of_N (n + 32) else c.

(** [s.lower()] on a byte string *)
Fixpoint lower (s : string) : string :=
  match s with
  | EmptyString => EmptyString
  | String c r => String (lower_char c) (lower r)
  end.

Fixpoint all_digits (s : string) : bool :=
  match s with
  | EmptyString => true
  | String c r => is_digit c && all_digits r
  end.

(** [s.isdigit()]: non-empty and made of decimal digits only *)
Definition isdigit (s : string) : bool :=
  match s with
  | EmptyString => false
  | _ => all_digits s
  end.

Fixpoint lstrip (s : string) : string :=
  match s with
  | String c r => if Ascii.is_space c then lstrip r else s
  | EmptyString => EmptyString
  end.

Definition strip (s : string) : string :=
  String.rev (lstrip (String.rev (lstrip s))).

Fixpoint digits_value (acc : Z) (s : string) : option Z :=
  match s with
  | EmptyString => Some acc
  | String c r =>
      match Ascii.is_nat c with
      | Some d => digits_value (10 * acc + Z.of_nat d) r
      | None => None
      end
  end.

Definition unsigned_value (s : string) : res Z :=
  match s with
  | EmptyString => Raise ValueError
  | _ => of_option (digits_value 0 s) ValueError
  end.

(** [int(s)] for a string [s], base 10: surrounding white space, an
    optional sign, then at least one decimal digit; anything else is a
    [ValueError]. *)
Definition int (s : string) : res Z :=
  match strip s with
  | String "-" r => z ← unsigned_value r; Ok (- z)
  | String "+" r => unsigned_value r
  | t => unsigned_value t
  end.

(** [s.find("@@")]: lowest index of the first occurrence, [-1] if none *)
Fixpoint find_atat (s : string) : Z :=
  match s with
  | String "@" (String "@" _) => 0
  | String _ r => let i := find_atat r in if i =? -1 then -1 else i + 1
  | EmptyString => -1
  end.

(** [s.replace("@@", new)]: every non-overlapping occurrence, left to right *)
Fixpoint replace_atat (new s : string) : string :=
  match s with
  | String "@" (String "@" r) => new +:+ replace_atat new r
  | String c r => String c (replace_atat new r)
  | EmptyString => EmptyString
  end.

(** ["%s %s" % (a, b)] *)
Definition fmt_s_s (a b : string) : string := a +:+ " " +:+ b.

(** ["%s%s" % (a, b)] *)
Definition fmt_ss (a b : string) : string := a +:+ b.

(** ["".join(lines)] *)
Definition join (lines : list string) : string :=
  foldr String.app "" lines.

Definition starts_with_slash (s : string) : bool :=
  match s with String "/" _ => true | _ => false end.

Definition ends_with_slash (s : string) : bool :=
  starts_with_slash (String.rev s).

(** [os.path.join(a, b)] (posixpath, two components) *)
Definition path_join (a b : string) : string :=
  if starts_with_slash b then b
  else if bool_decide (a = "") || ends_with_slash a then a +:+ b
  else a +:+ "/" +:+ b.

(** [l[:e]] for any integer [e] *)
Definition slice_to {A} (e : Z) (l : list A) : list A :=
  let n := Z.of_nat (length l) in
  let e' := if e <? 0 then Z.max 0 (e + n) else Z.min e n in
  take (Z.to_nat e') l.

(** [l[s:]] for any integer [s]: a negative [s] counts from the end *)
Definition slice_from {A} (s : Z) (l : list A) : list A :=
  let n := Z.of_nat (length l) in
  let s' := if s <? 0 then Z.max 0 (s + n) else Z.min s n in
  drop (Z.to_nat s') l.

(** [a % b] on integers: [ZeroDivisionError] when [b] is 0, else the
    remainder with the sign of [b], which is [Z.modulo]. *)
Definition mod_ (a b : Z) : res Z :=
  if b =? 0 then Raise ZeroDivisionError else Ok (a mod b).

(** [x > 0] where [x] is a list.  CPython 2 orders values of different
    types with numbers first: a list is greater than any integer, whatever
    it contains. *)
Definition list_gt_int {A} (x : list A) (n : Z) : bool := true.

End Py.

(** ** The Target Profile: [read_configuration] *)

(** The parsed configuration file ([ConfigParser.SafeConfigParser] with
    [optionxform = str], so option names are case sensitive): section name to
    option name to value.  [None] stands for a path that does not exist. *)
Abbreviation config_file := (gmap string (gmap string string)).

(** A value that is a string or an integer at run time ([self.timeout],
    [self.mode]). *)
Inductive pyval : Type :=
  | PyStr (s : string)
  | PyInt (z : Z).

(** [v.lower()]: integers have no such attribute *)
Definition pyval_lower (v : pyval) : res string :=
  match v with
  | PyStr s => Ok (Py.lower s)
  | PyInt _ => Raise AttributeError
  end.

(** [int(v)] *)
Definition pyval_int (v : pyval) : res Z :=
  match v with
  | PyStr s => Py.int s
  | PyInt z => Ok z
  end.

Inductive iface_t : Type := vtrace_iface | gdb_iface | pykd_iface.

Record Profile : Type := {
  pre_command : option string;
  pre_iterations : Z;
  post_command : option string;
  post_iterations : Z;
  command : string;
  extension : string;
  timeout : pyval;
  env : gmap string string;
  cleanup : option string;
  signal : option Z;
  mode : pyval;
  windbg_path : option string;
  exploitable_path : option string;
  iface : iface_t;
  debugging_interface : option string;
}.

(** [parser.getboolean] *)
Definition getboolean (s : string) : res bool :=
  let l := Py.lower s in
  if bool_decide (l ∈ ["1"; "yes"; "true"; "on"]) then Ok true
  else if bool_decide (l ∈ ["0"; "no"; "false"; "off"]) then Ok false
  else Raise ValueError.

Section Configuration.

(** Whether [pykd_iface] could be imported; when it could not, the name is
    unbound and using it raises (a [NameError], caught by the bare
    [except] around its only use in [read_configuration]). *)
Variable has_pykd : bool.

Definition opt_int (o : option string) (d : Z) : Z :=
  match o with
  | Some s => try_default (Py.int s) d
  | None => d
  end.

Definition read_mode (o : option string) : pyval :=
  match o with
  | Some s => if Py.isdigit s then try_default (PyInt <$> Py.int s) (PyInt 32)
              else PyStr s
  | None => PyInt 32
  end.

Definition read_iface (o : option string) : option string * iface_t :=
  match o with
  | Some d =>
      if bool_decide (d = "pykd") then
        if has_pykd then (Some d, pykd_iface) else (None, vtrace_iface)
      else if bool_decide (d = "gdb") then (Some d, gdb_iface)
      else (Some d, vtrace_iface)
  | None => (None, vtrace_iface)
  end.

(** [CGenericMinimizer.read_configuration], lines 131-239.  The [use-gdb]
    block (lines 221-227) only assigns [self.iface], which the
    [debugging-interface] block that follows assigns again on each of its
    paths, so it leaves no trace in the result. *)
Definition read_configuration (cfg : option config_file) (section : string)
    : res Profile :=
  match cfg with
  | None => Raise (Exception "Invalid configuration file given")
  | Some parser =>
    match parser !! section with
    | None =>
        Raise (Exception ("Section " +:+ section +:+
                          " does not exists in the given configuration file"))
    | Some opts =>
        let pre_command := opts !! "pre-command" in
        let pre_iterations := opt_int (opts !! "pre-iterations") 1 in
        let post_command := opts !! "post-command" in
        let post_iterations := opt_int (opts !! "post-iterations") 1 in
        command ← of_option (opts !! "command")
          (Exception ("No command specified in the configuration file for section "
                      +:+ section));
        extension ← of_option (opts !! "extension")
          (Exception ("No extension specified in the configuration file for section "
                      +:+ section));
        let timeout :=
          match opts !! "minimize-timeout" with
          | Some s => PyStr s
          | None => PyInt 90      (* Default timeout is 90 seconds *)
          end in
        low ← pyval_lower timeout;
        timeout ← (if bool_decide (low ≠ "auto")
                   then PyInt <$> pyval_int timeout else Ok timeout);
        let env :=
          match opts !! "environment" with
          | Some e => default ∅ (parser !! e)
          | None => ∅
          end in
        let cleanup := opts !! "cleanup-command" in
        let signal :=
          match opts !! "signal" with
          | Some s => match Py.int s with Ok z => Some z | Raise _ => None end
          | None => None
          end in
        let mode := read_mode (opts !! "mode") in
        let windbg_path := opts !! "windbg-path" in
        let exploitable_path := opts !! "exploitable-path" in
        let di := read_iface (opts !! "debugging-interface") in
        Ok {| pre_command := pre_command; pre_iterations := pre_iterations;
              post_command := post_command; post_iterations := post_iterations;
              command := command; extension := extension; timeout := timeout;
              env := env; cleanup := cleanup; signal := signal; mode := mode;
              windbg_path := windbg_path; exploitable_path := exploitable_path;
              iface := di.2; debugging_interface := di.1 |}
    end
  end.

(** The attributes [CLineMinimizer.read_configuration] adds, lines 346-371. *)
Record LineProfile : Type := {
  base : Profile;
  line_per_line : bool;
  lines_to_rip : Z;
  lines_percent : Z;
  crash_path : option string;
  infinite_loop : option string;
}.

Definition CLineMinimizer_read_configuration
    (cfg : option config_file) (section : string) : res LineProfile :=
  p ← read_configuration cfg section;
  let opts := default ∅ (cfg ≫= (.!! section)) in
  Ok {| base := p;
        (* bool(s): any non-empty string is true *)
        line_per_line :=
          match opts !! "line-per-line" with
          | Some s => bool_decide (s ≠ "")
          | None => false
          end;
        lines_to_rip := opt_int (opts !! "lines-to-rip") 1;
        lines_percent := opt_int (opts !! "lines-percent") 10;
        crash_path := opts !! "crash-path";
        infinite_loop := opts !! "crash-path" |}.

End Configuration.

(** ** The world outside the process, and the effects of a run *)

(** What a minimizer asks of its environment.  [C] is the content of a
    candidate file: a byte sequence for the byte-diff minimizer, a string for
    the line minimizer.  The first argument of every field is the trial
    counter ([iteration] in the source) at which the question is asked. *)
Record World (C : Type) : Type := {
  (** [tempfile.mktemp()], without the suffix *)
  mktemp : Z → string;
  (** [TimeoutCommand(cmd).run(timeout=...)]: the subject's return code *)
  timeout_run : Z → string → C → option Z;
  (** whether [iface.main(cmd)] reported a crash (returned something else
      than [None]) *)
  iface_main : Z → iface_t → string → C → bool;
  (** [os.listdir(self.crash_path)] after the subject has run *)
  listdir : Z → list string;
  (** the random source behind [random.randint] *)
  random_source : Z → Z;
  (** the content of the configuration file when it is read again *)
  cfg_at : Z → option config_file;
  (** [sha1(buf).hexdigest()] *)
  sha1_hex : C → string;
}.
Arguments mktemp {C} _ _.
Arguments timeout_run {C} _ _ _ _.
Arguments iface_main {C} _ _ _ _ _.
Arguments listdir {C} _ _.
Arguments random_source {C} _ _.
Arguments cfg_at {C} _ _.
Arguments sha1_hex {C} _ _.

Inductive event (C : Type) : Type :=
  | EvSystem (cmd : string)                  (* [os.system(cmd)], a hook *)
  | EvExec (it : Z) (cmd : string) (candidate : C)
                                             (* the subject run on a candidate *)
  | EvWrite (path : string) (content : C).   (* a file written to [outdir] *)
Arguments EvSystem {C} cmd.
Arguments EvExec {C} it cmd candidate.
Arguments EvWrite {C} path content.

(** The result of a loop body or of a loop: go on, [break], or an exception
    that leaves the loop; each with the state reached. *)
Inductive step (S : Type) : Type :=
  | Next (s : S)
  | Break (s : S)
  | Fail (e : exn) (s : S).
Arguments Next {S} s.
Arguments Break {S} s.
Arguments Fail {S} e s.

Definition step_state {S} (r : step S) : S :=
  match r with
  | Next s | Break s | Fail _ s => s
  end.

Section Oracle.

Context {C : Type}.
(** [RETURN_SIGNALS] of [nfp_process], which is not part of the sources at
    hand: a dictionary from return codes to signal names. *)
Variable RETURN_SIGNALS : gmap Z string.
Variable w : World C.

(** [execute_command], lines 256-274 *)
Definition execute_command (p : Profile) (it : Z) (cmd : string) (c : C)
    : option Z :=
  match debugging_interface p with
  | None => timeout_run w it cmd c
  | Some _ =>
      if iface_main w it (iface p) cmd c
      then Some 3221225477      (* 0xC0000005, access violation in Windows *)
      else None
  end.

(** [ret in RETURN_SIGNALS] *)
Definition in_return_signals (ret : option Z) : bool :=
  match ret with
  | Some z => bool_decide (is_Some (RETURN_SIGNALS !! z))
  | None => false
  end.

(** [self.signal is not None and ret == self.signal] *)
Definition is_configured_signal (sig ret : option Z) : bool :=
  match sig with
  | Some s => bool_decide (ret = Some s)
  | None => false
  end.

(** The condition of lines 310-311 and 483-484: a short-circuit [or] whose
    last operand is the call [self.crash_file_exists()]. *)
Definition crash_condition (sig ret : option Z) (crash_file_exists : res bool)
    : res bool :=
  if in_return_signals ret then Ok true
  else if is_configured_signal sig ret then Ok true
  else crash_file_exists.

(** [(ret, RETURN_SIGNALS[ret])], the arguments of the log line 312 *)
Definition caught_signal_name (ret : option Z) : res string :=
  match ret with
  | Some z => of_option (RETURN_SIGNALS !! z) KeyError
  | None => Raise KeyError
  end.

Definition run_hook (hook : option string) (tr : list (event C))
    : list (event C) :=
  match hook with
  | Some c => tr ++ [EvSystem c]
  | None => tr
  end.

End Oracle.

(** ** The byte-diff minimizer: [CGenericMinimizer] *)

Abbreviation byte := Byte.byte.

(** The attributes [do_try] reads and writes, and its locals. *)
Record GState : Type := {
  diff : list nat;
  template : list byte;
  crash : gmap nat byte;
  iteration : Z;
  trace : list (event (list byte));
}.

Definition g_set_iteration (it : Z) (st : GState) : GState :=
  {| diff := diff st; template := template st; crash := crash st;
     iteration := it; trace := trace st |}.

Definition g_set_trace (tr : list (event (list byte))) (st : GState) : GState :=
  {| diff := diff st; template := template st; crash := crash st;
     iteration := iteration st; trace := tr |}.

Definition g_set_diff (d : list nat) (st : GState) : GState :=
  {| diff := d; template := template st; crash := crash st;
     iteration := iteration st; trace := trace st |}.

Definition g_set_buffers (t : list byte) (c : gmap nat byte) (st : GState)
    : GState :=
  {| diff := diff st; template := t; crash := c;
     iteration := iteration st; trace := trace st |}.

(** [read_crash], lines 124-129: the crash byte at every offset of [diff];
    an offset beyond the crashing file is an [IndexError]. *)
Fixpoint read_crash (tmp : list byte) (d : list nat) (acc : gmap nat byte)
    : res (gmap nat byte) :=
  match d with
  | [] => Ok acc
  | pos :: d' =>
      match tmp !! pos with
      | Some b => read_crash tmp d' (<[pos := b]> acc)
      | None => Raise IndexError
      end
  end.

Section ByteDiff.

Variable RETURN_SIGNALS : gmap Z string.
Variable w : World (list byte).
Variable p : Profile.
Variable outdir : string.
Variable start_at : Z.

(** [CGenericMinimizer] defines no method [crash_file_exists] (only the
    subclass [CLineMinimizer] does, which overrides [do_try] as well), so
    the call at line 311 fails when it is reached. *)
Definition CGenericMinimizer_crash_file_exists : res bool :=
  Raise AttributeError.

(** The body of the inner loop, lines 283-325, for the offset [pos]. *)
Definition g_trial (pos : nat) (st : GState) : step GState :=
  if start_at <=? iteration st then
    let temp_file := mktemp w (iteration st) in
    match crash st !! pos with
    | None => Next st                                    (* [continue] *)
    | Some b =>
        if decide (pos < length (template st))%nat then
          let buf := <[pos := b]> (template st) in
          let tr1 := run_hook (pre_command p) (trace st) in
          let cmd := Py.fmt_s_s (command p) temp_file in
          let ret := execute_command w p (iteration st) cmd buf in
          let tr2 := tr1 ++ [EvExec (iteration st) cmd buf] in
          let st3 := g_set_trace (run_hook (post_command p) tr2) st in
          match crash_condition RETURN_SIGNALS (signal p) ret
                  CGenericMinimizer_crash_file_exists with
          | Raise e => Fail e st3
          | Ok true =>
              match caught_signal_name RETURN_SIGNALS ret with
              | Raise e => Fail e st3
              | Ok _ =>
                  let filename :=
                    Py.path_join outdir
                      (Py.fmt_ss (sha1_hex w buf) (extension p)) in
                  Break (g_set_trace (trace st3 ++ [EvWrite filename buf]) st3)
              end
          | Ok false => Next (g_set_iteration (iteration st3 + 1) st3)
          end
        else Fail IndexError st          (* [buf[pos] = ...] out of range *)
    end
  else Next (g_set_iteration (iteration st + 1) st).

(** [for pos in self.diff], lines 282-325 *)
Fixpoint g_inner_pass (ps : list nat) (st : GState) : step GState :=
  match ps with
  | [] => Next st
  | pos :: ps' =>
      match g_trial pos st with
      | Next st' => g_inner_pass ps' st'
      | r => r
      end
  end.

(** Lines 330-333: [value = self.diff.pop()], and the change at [value]
    made part of the template. *)
Definition g_bake (st : GState) : step GState :=
  match last (diff st) with
  | None => Fail IndexError st                 (* pop from empty list *)
  | Some value =>
      let st1 := g_set_diff (removelast (diff st)) st in
      match crash st !! value with
      | Some b =>
          if decide (value < length (template st))%nat then
            Next (g_set_buffers (<[value := b]> (template st))
                                (delete value (crash st)) st1)
          else Fail IndexError st1
      | None => Next st1
      end
  end.

(** One turn of [for i in range(len(self.diff))], lines 281-333 *)
Definition g_round (st : GState) : step GState :=
  match g_inner_pass (diff st) st with
  | Next st1 => g_bake st1
  | r => r
  end.

Fixpoint g_rounds (n : nat) (st : GState) : step GState :=
  match n with
  | O => Next st
  | S n' =>
      match g_round st with
      | Next st' => g_rounds n' st'
      | r => r
      end
  end.

(** [CGenericMinimizer.do_try], lines 276-336.  [Break]: minimized, the
    candidate written to [outdir].  [Next]: "Sorry, could not minimize
    crashing file!".  [Fail]: the exception that ended the run. *)
Definition CGenericMinimizer_do_try
    (d : list nat) (t : list byte) (c : gmap nat byte) : step GState :=
  g_rounds (length d)
    {| diff := d; template := t; crash := c; iteration := 0; trace := [] |}.

(** [minimize] after the three files have been read, lines 241-254 *)
Definition CGenericMinimizer_minimize
    (t crashing : list byte) (d : list nat) : res (step GState) :=
  c ← read_crash crashing d ∅;
  Ok (CGenericMinimizer_do_try d t c).

End ByteDiff.

(** ** The line minimizer: [CLineMinimizer] *)

(** The attributes and locals [do_try] works on.  [l_profile] stands for the
    configuration attributes of [self], which every trial reads again. *)
Record LState : Type := {
  l_template : list string;
  l_profile : LineProfile;
  l_iteration : Z;
  l_loops : Z;
  l_current_line : Z;
  l_trace : list (event string);
}.

Definition l_set_template (t : list string) (st : LState) : LState :=
  {| l_template := t; l_profile := l_profile st;
     l_iteration := l_iteration st; l_loops := l_loops st;
     l_current_line := l_current_line st; l_trace := l_trace st |}.

Definition l_set_profile (lp : LineProfile) (st : LState) : LState :=
  {| l_template := l_template st; l_profile := lp;
     l_iteration := l_iteration st; l_loops := l_loops st;
     l_current_line := l_current_line st; l_trace := l_trace st |}.

Definition l_set_iteration (it : Z) (st : LState) : LState :=
  {| l_template := l_template st; l_profile := l_profile st;
     l_iteration := it; l_loops := l_loops st;
     l_current_line := l_current_line st; l_trace := l_trace st |}.

Definition l_set_loops (n : Z) (st : LState) : LState :=
  {| l_template := l_template st; l_profile := l_profile st;
     l_iteration := l_iteration st; l_loops := n;
     l_current_line := l_current_line st; l_trace := l_trace st |}.

Definition l_set_current_line (c : Z) (st : LState) : LState :=
  {| l_template := l_template st; l_profile := l_profile st;
     l_iteration := l_iteration st; l_loops := l_loops st;
     l_current_line := c; l_trace := l_trace st |}.

Definition l_set_trace (tr : list (event string)) (st : LState) : LState :=
  {| l_template := l_template st; l_profile := l_profile st;
     l_iteration := l_iteration st; l_loops := l_loops st;
     l_current_line := l_current_line st; l_trace := tr |}.

(** How a run of the [while 1] loop ends: it left the loop, an exception left
    it, or the model stopped unrolling it. *)
Inductive run (S : Type) : Type :=
  | Finished (s : S)
  | Raised (e : exn) (s : S)
  | Unfinished (s : S).
Arguments Finished {S} s.
Arguments Raised {S} e s.
Arguments Unfinished {S} s.

Definition run_state {S} (r : run S) : S :=
  match r with
  | Finished s | Raised _ s | Unfinished s => s
  end.

Definition finished {S} (r : run S) : bool :=
  match r with
  | Finished _ => true
  | _ => false
  end.

Definition newline : string := String "010" "".
Definition crlf : string := String "013" newline.

(** [CLineMinimizer.read_template], lines 373-382, on the lines of the file
    ([self.strip_empty_lines] is always [True]). *)
Definition CLineMinimizer_read_template (l : list string) : list string :=
  filter (λ line, line ∉ [newline; crlf]) l.

Section Lines.

Variable RETURN_SIGNALS : gmap Z string.
Variable has_pykd : bool.
Variable w : World string.
Variable section : string.
Variable outdir : string.

(** [crash_file_exists], lines 397-400 *)
Definition CLineMinimizer_crash_file_exists (lp : LineProfile) (it : Z)
    : res bool :=
  match crash_path lp with
  | Some _ => Ok (Py.list_gt_int (listdir w it) 0)
  | None => Ok false
  end.

(** [random.randint(a, b)]: a value of [a..b], a [ValueError] when the
    range is empty *)
Definition randint (it a b : Z) : res Z :=
  if b <? a then Raise ValueError
  else Ok (a + random_source w it mod (b - a + 1)).

(** Lines 439-453: the number of lines to remove *)
Definition lines_to_remove (lp : LineProfile) (it loops total_lines cur : Z)
    : res Z :=
  if (loops =? 0) && negb (line_per_line lp) then
    let val := (total_lines - cur) * lines_percent lp / 100 in
    let val := if val =? 0 then 1 else val in
    randint it 1 val
  else Ok (lines_to_rip lp).

(** Line 455: [lines[:current_line] + lines[current_line+lines_to_rip:]] *)
Definition rip (cur k : Z) (lines : list string) : list string :=
  Py.slice_to cur lines ++ Py.slice_from (cur + k) lines.

(** Lines 472-475 *)
Definition CLineMinimizer_cmd (command temp_file : string) : string :=
  if Py.find_atat command =? -1 then Py.fmt_s_s command temp_file
  else Py.replace_atat temp_file command.

(** Lines 467-470 and 478-481: a hook, run when [i % interval == 0] *)
Definition gated_hook (i interval : Z) (hook : option string)
    (tr : list (event string)) : res (list (event string)) :=
  m ← Py.mod_ i interval;
  Ok (if m =? 0 then run_hook hook tr else tr).

(** The body of the [for] loop, lines 430-501, at index [i]. [Break] is the
    [break] of line 437. *)
Definition l_trial (total_lines i : Z) (st0 : LState) : step LState :=
  let it := l_iteration st0 in
  match CLineMinimizer_read_configuration has_pykd (cfg_at w it) section with
  | Raise e => Fail e st0
  | Ok lp =>
    let st := l_set_iteration (it + 1) (l_set_profile lp st0) in
    let temp_file := Py.fmt_ss (mktemp w it) (extension (base lp)) in
    let lines := l_template st in
    let cur := l_current_line st in
    if Z.of_nat (length lines) <=? cur then Break st
    else
      match lines_to_remove lp it (l_loops st) total_lines cur with
      | Raise e => Fail e st
      | Ok k =>
        let lines := rip cur k lines in
        let buf := Py.join lines in
        match gated_hook i (pre_iterations (base lp))
                (pre_command (base lp)) (l_trace st) with
        | Raise e => Fail e st
        | Ok tr1 =>
          let cmd := CLineMinimizer_cmd (command (base lp)) temp_file in
          let ret := execute_command w (base lp) it cmd buf in
          let tr2 := tr1 ++ [EvExec it cmd buf] in
          match gated_hook i (post_iterations (base lp))
                  (post_command (base lp)) tr2 with
          | Raise e => Fail e (l_set_trace tr2 st)
          | Ok tr3 =>
            match crash_condition RETURN_SIGNALS (signal (base lp)) ret
                    (CLineMinimizer_crash_file_exists lp it) with
            | Raise e => Fail e (l_set_trace tr3 st)
            | Ok true =>
                let filename :=
                  Py.path_join outdir
                    (Py.fmt_ss "last_minimized" (extension (base lp))) in
                Next (l_set_trace (tr3 ++ [EvWrite filename (Py.join lines)])
                        (l_set_template lines st))
            | Ok false =>
                Next (l_set_trace tr3 (l_set_current_line (cur + 1) st))
            end
          end
        end
      end
  end.

(** [for i in range(len(self.template))], lines 429-501: [n] turns are
    left, the next index is [i]. *)
Fixpoint l_pass (total_lines : Z) (n : nat) (i : Z) (st : LState)
    : step LState :=
  match n with
  | O => Next st
  | S n' =>
      match l_trial total_lines i st with
      | Next st' => l_pass total_lines n' (i + 1) st'
      | Break st' => Next st'
      | Fail e st' => Fail e st'
      end
  end.

(** The [while 1] loop, lines 423-514, unrolled at most [fuel] times. *)
Fixpoint l_while (fuel : nat) (st : LState) : run LState :=
  match fuel with
  | O => Unfinished st
  | S fuel' =>
      let total_lines := Z.of_nat (length (l_template st)) in
      let st := l_set_current_line 0 st in
      match l_pass total_lines (length (l_template st)) 0 st with
      | Fail e st' => Raised e st'
      | Next st' | Break st' =>
          let st' := l_set_loops (l_loops st' + 1) st' in
          if Z.of_nat (length (l_template st')) =? total_lines then
            let buf := Py.join (l_template st') in
            let filename :=
              Py.path_join outdir
                (Py.fmt_ss (sha1_hex w buf)
                   (extension (base (l_profile st')))) in
            Finished (l_set_trace (l_trace st' ++ [EvWrite filename buf]) st')
          else l_while fuel' st'
      end
  end.

(** [CLineMinimizer.do_try], lines 408-514, on an object whose constructor
    read the configuration [lp0].  The body never reads [start_at]. *)
Definition CLineMinimizer_do_try (start_at : Z) (fuel : nat)
    (lp0 : LineProfile) (template : list string) : run LState :=
  l_while fuel
    {| l_template := template; l_profile := lp0; l_iteration := 0;
       l_loops := 0; l_current_line := 0; l_trace := [] |}.

End Lines.

(** ** Conditions on a configuration, and sample inputs *)


(** The number of lines to remove can be computed in the first loop: the
    percentage is not negative when it is used. *)
Definition percent_ok (lp : LineProfile) : Prop :=
  line_per_line lp = false → 0 ≤ lines_percent lp.


(** No operand of the crash condition holds for the exit code. *)
Definition exits_quietly {C} (RETURN_SIGNALS : gmap Z string)
    (w : World C) (p : Profile) (it : Z) : Prop :=
  ∀ cmd c,
    in_return_signals RETURN_SIGNALS (execute_command w p it cmd c) = false ∧
    is_configured_signal (signal p) (execute_command w p it cmd c) = false.

(** What an event says about file contents. *)
Definition event_contents {C} (P : C → Prop) (ev : event C) : Prop :=
  match ev with
  | EvSystem _ => True
  | EvExec _ _ c => P c
  | EvWrite _ c => P c
  end.

Definition written {C} (P : C → Prop) (ev : event C) : Prop :=
  match ev with
  | EvWrite _ c => P c
  | _ => True
  end.

(** [diff], the template and the crash map are the same in two states. *)
Definition same_buffers (st st' : GState) : Prop :=
  diff st' = diff st ∧ template st' = template st ∧ crash st' = crash st.

(** The offsets of [diff] are pairwise distinct and each has its crash byte. *)
Definition offsets_known (st : GState) : Prop :=
  NoDup (diff st) ∧ ∀ v, v ∈ diff st → is_Some (crash st !! v).

(** [buf] has the byte of [t0] at offset [i], and the length of [t0]. *)
Definition untouched (i : nat) (t0 buf : list byte) : Prop :=
  buf !! i = t0 !! i ∧ length buf = length t0.

(** The state of a byte-diff run as seen from an offset [i]: the offsets
    still to try are among [d0], and neither the template nor any candidate
    run or written differs from [t0] at [i]. *)
Definition g_frame (i : nat) (d0 : list nat) (t0 : list byte) (st : GState)
    : Prop :=
  diff st ⊆ d0
  ∧ untouched i t0 (template st)
  ∧ Forall (event_contents (untouched i t0)) (trace st).




(** The state of a line run as seen from its input [T0]: the buffer is what
    is left of [T0] after lines have been deleted, the cursor is not
    negative, and every file written holds such a buffer. *)
Definition l_shrunk (T0 : list string) (st : LState) : Prop :=
  l_template st `sublist_of` T0
  ∧ 0 ≤ l_current_line st
  ∧ Forall (written (λ content,
       ∃ l, content = Py.join l ∧ l `sublist_of` T0)) (l_trace st).

Module Sample.

(** A table of the shape of [RETURN_SIGNALS]. *)
Definition signals : gmap Z string :=
  {[ 139 := "SIGSEGV"; 134 := "SIGABRT" ]}.

(** A section with the two required options only. *)
Definition minimal : gmap string string :=
  {[ "command" := "prog @@ -x"; "extension" := ".bin" ]}.

Definition with_timeout : gmap string string :=
  <["minimize-timeout" := "30"]> minimal.

Definition file (opts : gmap string string) : config_file :=
  {[ "target" := opts ]}.

(** The profile [read_configuration] resolves [with_timeout] to. *)
Definition profile : Profile :=
  {| pre_command := None; pre_iterations := 1;
     post_command := None; post_iterations := 1;
     command := "prog @@ -x"; extension := ".bin"; timeout := PyInt 30;
     env := ∅; cleanup := None; signal := None; mode := PyInt 32;
     windbg_path := None; exploitable_path := None;
     iface := vtrace_iface; debugging_interface := None |}.

Definition profile_signal (s : Z) : Profile :=
  {| pre_command := None; pre_iterations := 1;
     post_command := None; post_iterations := 1;
     command := "prog @@ -x"; extension := ".bin"; timeout := PyInt 30;
     env := ∅; cleanup := None; signal := Some s; mode := PyInt 32;
     windbg_path := None; exploitable_path := None;
     iface := vtrace_iface; debugging_interface := None |}.

Definition line_profile : LineProfile :=
  {| base := profile; line_per_line := false; lines_to_rip := 1;
     lines_percent := 10; crash_path := None; infinite_loop := None |}.

(** A world where the subject's exit code at trial [it] is [ret it], the
    crash directory is always empty and the configuration file does not
    change. *)
Definition world {C} (ret : Z → option Z) (opts : gmap string string)
    : World C :=
  {| mktemp := λ _, "/tmp/tmpfile";
     timeout_run := λ it _ _, ret it;
     iface_main := λ _ _ _ _, false;
     listdir := λ _, [];
     random_source := λ _, 0;
     cfg_at := λ _, Some (file opts);
     sha1_hex := λ _, "da39a3ee" |}.

Definition always {A} (r : A) : Z → A := λ _, r.

(** A section that names a crash directory. *)
Definition with_crash_path : gmap string string :=
  <["crash-path" := "/tmp/crashes"]> with_timeout.

(** A section that asks for a negative number of lines, line per line. *)
Definition negative_rip : gmap string string :=
  <["lines-to-rip" := "-1"]> (<["line-per-line" := "1"]> with_timeout).

Definition only_at (n : Z) (r : Z) : Z → option Z :=
  λ it, if it =? n then Some r else Some 0.

(** The profile [negative_rip] is resolved to. *)
Definition negative_line_profile : LineProfile :=
  {| base := profile; line_per_line := true; lines_to_rip := -1;
     lines_percent := 10; crash_path := None; infinite_loop := None |}.

End Sample.

(** ** The input files and the command line *)

Fixpoint lstrip_char (c : ascii) (s : string) : string :=
  match s with
  | String a r => if bool_decide (a = c) then lstrip_char c r else s
  | EmptyString => EmptyString
  end.

(** [s.strip(c)] for a one-character string [c] *)
Definition strip_char (c : ascii) (s : string) : string :=
  String.rev (lstrip_char c (String.rev (lstrip_char c s))).

(** [s.startswith("#")] *)
Definition starts_with_hash (s : string) : bool :=
  match s with String "#" _ => true | _ => false end.

(** [read_diff], lines 111-119, on the lines of the file as [readlines]
    gives them; [acc] is [self.diff] so far. *)
Fixpoint read_diff (lines : list string) (acc : list Z) : res (list Z) :=
  match lines with
  | [] => Ok acc
  | line :: rest =>
      if starts_with_hash line then read_diff rest acc
      else
        let line := strip_char "013" (strip_char "010" line) in
        if Py.isdigit line then
          z ← Py.int line; read_diff rest (acc ++ [z])
        else read_diff rest acc
  end.

(** What the script ends up doing with its arguments. *)
Inductive invocation : Type :=
  | PrintUsage
  | UnknownMode (mode : string)
  (* [CGenericMinimizer(cfg, section).minimize(template, crash, diff, output)] *)
  | GenericRun (cfg section template crash diff : string)
      (output : option string)
  (* [CLineMinimizer(cfg, section).minimize(template, output)] *)
  | LineRun (cfg section template output : string)
  | NoAction.

(** [main], lines 517-526 *)
Definition main (mode cfg section template crash diff : string)
    (output : option string) : invocation :=
  if bool_decide (mode = "generic") then
    GenericRun cfg section template crash diff output
  else if bool_decide (mode = "line") then
    LineRun cfg section template diff
  else UnknownMode mode.

(** [sys.argv[i]] for an index known to be in range *)
Definition argv_at (argv : list string) (i : nat) : string :=
  default "" (argv !! i).

(** The script body, lines 535-541 *)
Definition script (argv : list string) : invocation :=
  if decide (length argv < 6)%nat then PrintUsage
  else if decide (length argv = 6)%nat then
    main (argv_at argv 1) (argv_at argv 2) (argv_at argv 3) (argv_at argv 4)
      (argv_at argv 5) (argv_at argv 5) None
  else if decide (length argv = 7)%nat then
    main (argv_at argv 1) (argv_at argv 2) (argv_at argv 3) (argv_at argv 4)
      (argv_at argv 5) (argv_at argv 6) None
  else NoAction.

(** The content of the file written last, if any. *)
Definition last_written {C} (tr : list (event C)) : option C :=
  foldl (λ acc ev, match ev with EvWrite _ c => Some c | _ => acc end) None tr.

(** The trials at which the subject was run, in order. *)
Definition executed {C} (tr : list (event C)) : list Z :=
  omap (λ ev, match ev with EvExec it _ _ => Some it | _ => None end) tr.

(** The number of trials of a byte-diff run on [n] offsets none of which is
    left out: [n + (n-1) + ... + 1]. *)
Fixpoint triangle (n : nat) : Z :=
  match n with
  | O => 0
  | S n' => Z.of_nat n + triangle n'
  end.

(** The events of a hook that is run. *)
Definition hook_events {C} (hook : option string) : list (event C) :=
  match hook with
  | Some c => [EvSystem c]
  | None => []
  end.

(** The events of a byte-diff trial that runs the subject on [buf] at the
    trial [it]. *)
Definition g_trial_events (w : World (list byte)) (p : Profile) (it : Z)
    (buf : list byte) : list (event (list byte)) :=
  hook_events (pre_command p)
  ++ [EvExec it (Py.fmt_s_s (command p) (mktemp w it)) buf]
  ++ hook_events (post_command p).

(** The path of the file a byte-diff run writes for [buf]. *)
Definition g_written_path (w : World (list byte)) (p : Profile)
    (outdir : string) (buf : list byte) : string :=
  Py.path_join outdir (Py.fmt_ss (sha1_hex w buf) (extension p)).

(** The candidate of the state [st] for the offset [pos] of its [diff] with
    the crash byte [b]. *)
Definition g_candidate (st : GState) (pos : nat) (b : byte) : Prop :=
  pos ∈ diff st ∧ crash st !! pos = Some b
  ∧ (pos < length (template st))%nat.

(** How a pass or a run of the byte-diff minimizer ends, seen from the
    events [tr0] recorded before it: it went on with nothing run; it stopped
    with success, one candidate run and written; it raised, before running
    anything or after one candidate was run. *)
Definition g_ending (w : World (list byte)) (p : Profile) (outdir : string)
    (start_at : Z) (tr0 : list (event (list byte))) (r : step GState) : Prop :=
  match r with
  | Next st' => trace st' = tr0
  | Break st' =>
      ∃ pos b,
        g_candidate st' pos b ∧ start_at ≤ iteration st'
        ∧ trace st'
          = tr0
            ++ g_trial_events w p (iteration st') (<[pos := b]> (template st'))
            ++ [EvWrite (g_written_path w p outdir (<[pos := b]> (template st')))
                  (<[pos := b]> (template st'))]
  | Fail e st' =>
      trace st' = tr0
      ∨ ∃ pos b,
          g_candidate st' pos b ∧ start_at ≤ iteration st'
          ∧ trace st'
            = tr0
              ++ g_trial_events w p (iteration st')
                   (<[pos := b]> (template st'))
  end.

(** Every crash byte of [c0] at an offset of [d0] is either still to be
    tried or already in the template. *)
Definition g_baked (d0 : list nat) (c0 : gmap nat byte) (st : GState) : Prop :=
  (∀ v b, crash st !! v = Some b → c0 !! v = Some b)
  ∧ ∀ v b, v ∈ d0 → c0 !! v = Some b →
      (v ∈ diff st ∧ crash st !! v = Some b) ∨ template st !! v = Some b.


Module Fixtures.

(** The sample profile with the [gdb] interface. *)
Definition profile_gdb : Profile :=
  {| pre_command := None; pre_iterations := 1;
     post_command := None; post_iterations := 1;
     command := "prog @@ -x"; extension := ".bin"; timeout := PyInt 30;
     env := ∅; cleanup := None; signal := None; mode := PyInt 32;
     windbg_path := None; exploitable_path := None;
     iface := gdb_iface; debugging_interface := Some "gdb" |}.

(** The sample profile with a hook interval of 0. *)
Definition zero_interval : gmap string string :=
  <["pre-iterations" := "0"]> Sample.with_timeout.

(** A section with a negative percentage. *)
Definition negative_percent : gmap string string :=
  <["lines-percent" := "-5"]> Sample.with_timeout.

Definition zero_interval_profile : LineProfile :=
  {| base :=
       {| pre_command := None; pre_iterations := 0;
          post_command := None; post_iterations := 1;
          command := "prog @@ -x"; extension := ".bin"; timeout := PyInt 30;
          env := ∅; cleanup := None; signal := None; mode := PyInt 32;
          windbg_path := None; exploitable_path := None;
          iface := vtrace_iface; debugging_interface := None |};
     line_per_line := false; lines_to_rip := 1; lines_percent := 10;
     crash_path := None; infinite_loop := None |}.

Definition negative_percent_profile : LineProfile :=
  {| base := Sample.profile; line_per_line := false; lines_to_rip := 1;
     lines_percent := -5; crash_path := None; infinite_loop := None |}.

(** The lines of a diff file: a comment, three offsets, a line that is no
    number. *)
Definition diff_lines : list string :=
  [ "# offsets" +:+ newline; "3" +:+ newline; "17" +:+ crlf;
    "x" +:+ newline; "250" ].

End Fixtures.

(** * Properties *)

(** ** Target Profile resolution *)

Section ConfigurationFacts.

Variable has_pykd : bool.

Lemma read_configuration_no_file section :
  read_configuration has_pykd None section
  = Raise (Exception "Invalid configuration file given").
Proof. reflexivity. Qed.

Lemma read_configuration_no_section (parser : config_file) section :
  parser !! section = None →
  ∃ msg, read_configuration has_pykd (Some parser) section
         = Raise (Exception msg).
Proof. intros H. unfold read_configuration. rewrite H. eauto. Qed.

Lemma read_configuration_no_command (parser : config_file) section
    (opts : gmap string string) :
  parser !! section = Some opts →
  opts !! "command" = None →
  ∃ msg, read_configuration has_pykd (Some parser) section
         = Raise (Exception msg).
Proof.
  intros Hs Hc. unfold read_configuration. rewrite Hs, Hc. simpl. eauto.
Qed.

Lemma read_configuration_no_extension (parser : config_file) section
    (opts : gmap string string) c :
  parser !! section = Some opts →
  opts !! "command" = Some c →
  opts !! "extension" = None →
  ∃ msg, read_configuration has_pykd (Some parser) section
         = Raise (Exception msg).
Proof.
  intros Hs Hc He. unfold read_configuration. rewrite Hs, Hc, He. simpl. eauto.
Qed.

(** With a timeout given as a number, the resolution of a section that has
    the two required options succeeds. *)
Lemma read_configuration_with_timeout (parser : config_file) section
    (opts : gmap string string) c e t z :
  parser !! section = Some opts →
  opts !! "command" = Some c →
  opts !! "extension" = Some e →
  opts !! "minimize-timeout" = Some t →
  Py.lower t ≠ "auto" →
  Py.int t = Ok z →
  ∃ p, read_configuration has_pykd (Some parser) section = Ok p
       ∧ command p = c ∧ extension p = e ∧ timeout p = PyInt z.
Proof.
  intros Hs Hc He Ht Hl Hz. unfold read_configuration.
  rewrite Hs, Hc, He, Ht. simpl.
  rewrite bool_decide_true by done. simpl. rewrite Hz. simpl.
  eexists. split; [reflexivity|]. done.
Qed.

(** C1 (the code departs from the claim).  A section that holds the
    required options [command] and [extension] and no [minimize-timeout]
    is not resolved to a profile with the default timeout of 90 seconds:
    the default is the integer 90, on which line 183 calls [lower()], and
    [read_configuration] ends with an [AttributeError]. *)
Theorem read_configuration_default_timeout_raises
    (parser : config_file) section (opts : gmap string string) c e :
  parser !! section = Some opts →
  opts !! "command" = Some c →
  opts !! "extension" = Some e →
  opts !! "minimize-timeout" = None →
  read_configuration has_pykd (Some parser) section = Raise AttributeError.
Proof.
  intros Hs Hc He Ht. unfold read_configuration.
  rewrite Hs, Hc, He, Ht. reflexivity.
Qed.

End ConfigurationFacts.

Lemma read_configuration_default_timeout_raises_witness :
  Sample.file Sample.minimal !! "target" = Some Sample.minimal
  ∧ read_configuration true (Some (Sample.file Sample.minimal)) "target"
    = Raise AttributeError.
Proof.
  split; [reflexivity|].
  apply (read_configuration_default_timeout_raises true
           (Sample.file Sample.minimal) "target" Sample.minimal
           "prog @@ -x" ".bin"); reflexivity.
Defined.

Lemma sample_profile_resolved :
  read_configuration true (Some (Sample.file Sample.with_timeout)) "target"
  = Ok Sample.profile.
Proof. reflexivity. Qed.

Lemma sample_line_profile_resolved :
  CLineMinimizer_read_configuration true
    (Some (Sample.file Sample.with_timeout)) "target"
  = Ok Sample.line_profile.
Proof. reflexivity. Qed.

(** ** The command handed to the subject *)

Lemma line_cmd_appends command temp_file :
  Py.find_atat command = -1 →
  CLineMinimizer_cmd command temp_file = command +:+ " " +:+ temp_file.
Proof. intros H. unfold CLineMinimizer_cmd. rewrite H. reflexivity. Qed.

Lemma line_cmd_substitutes command temp_file :
  Py.find_atat command ≠ -1 →
  CLineMinimizer_cmd command temp_file = Py.replace_atat temp_file command.
Proof.
  intros H. unfold CLineMinimizer_cmd.
  destruct (Z.eqb_spec (Py.find_atat command) (-1)); [done|reflexivity].
Qed.

(** The byte-diff minimizer appends the path whatever the command holds. *)
Lemma byte_diff_cmd_appends RS w p outdir start_at pos st b :
  start_at ≤ iteration st →
  crash st !! pos = Some b →
  (pos < length (template st))%nat →
  EvExec (iteration st)
    (command p +:+ " " +:+ mktemp w (iteration st))
    (<[pos := b]> (template st))
  ∈ trace (step_state (g_trial RS w p outdir start_at pos st)).
Proof.
  intros Hs Hc Hl. unfold g_trial.
  destruct (Z.leb_spec start_at (iteration st)); [|lia].
  rewrite Hc. rewrite decide_True by done.
  set (ev := EvExec _ _ _).
  assert (Hin : ∀ tr, ev ∈ run_hook (post_command p) (tr ++ [ev])).
  { intros tr. unfold run_hook. destruct (post_command p); set_solver. }
  destruct (crash_condition _ _ _ _) as [[]|]; simpl;
    [destruct (caught_signal_name _ _); simpl|..];
    try apply Hin; apply elem_of_app; left; apply Hin.
Qed.

(** C4 (the code departs from the claim).  With the command
    [prog @@ -x], which holds the placeholder, the byte-diff minimizer runs
    [prog @@ -x /tmp/tmpfile]: line 303 appends the path and leaves the
    placeholder in place, where the line minimizer (lines 472-475) builds
    [prog /tmp/tmpfile -x]. *)
Theorem byte_diff_ignores_placeholder :
  Py.find_atat (command Sample.profile) ≠ -1
  ∧ trace (step_state
      (CGenericMinimizer_do_try Sample.signals
         (Sample.world (Sample.always (Some 139)) Sample.with_timeout)
         Sample.profile "out" 0 [0%nat] [Byte.x00] {[ 0%nat := Byte.x01 ]}))
    = [ EvExec 0 "prog @@ -x /tmp/tmpfile" [Byte.x01];
        EvWrite "out/da39a3ee.bin" [Byte.x01] ]
  ∧ CLineMinimizer_cmd (command Sample.profile) "/tmp/tmpfile"
    = "prog /tmp/tmpfile -x".
Proof. split; [done|]. split; reflexivity. Qed.

(** ** The crash condition *)

Section Verdict.

Variable RETURN_SIGNALS : gmap Z string.


Lemma crash_condition_quiet sig ret cfe :
  in_return_signals RETURN_SIGNALS ret = false →
  is_configured_signal sig ret = false →
  crash_condition RETURN_SIGNALS sig ret cfe = cfe.
Proof. intros H1 H2. unfold crash_condition. by rewrite H1, H2. Qed.

(** In the line minimizer a configured crash directory decides the trial:
    the comparison of line 399 is between a list and the integer 0. *)
Lemma line_marker_always_crashes (w : World string) lp it sig ret path :
  crash_path lp = Some path →
  crash_condition RETURN_SIGNALS sig ret
    (CLineMinimizer_crash_file_exists w lp it) = Ok true.
Proof.
  intros H. unfold crash_condition, CLineMinimizer_crash_file_exists.
  rewrite H. by repeat case_match.
Qed.


(** In the byte-diff minimizer the condition has a value only when one of
    its first two operands holds. *)
Lemma byte_diff_condition_quiet sig ret :
  in_return_signals RETURN_SIGNALS ret = false →
  is_configured_signal sig ret = false →
  crash_condition RETURN_SIGNALS sig ret CGenericMinimizer_crash_file_exists
  = Raise AttributeError.
Proof. intros H1 H2. by rewrite crash_condition_quiet. Qed.

Lemma byte_diff_signal_only sig ret :
  in_return_signals RETURN_SIGNALS ret = false →
  is_configured_signal sig ret = true →
  crash_condition RETURN_SIGNALS sig ret CGenericMinimizer_crash_file_exists
  = Ok true
  ∧ caught_signal_name RETURN_SIGNALS ret = Raise KeyError.
Proof.
  intros H1 H2. unfold crash_condition. rewrite H1, H2. split; [done|].
  destruct ret as [z|]; [|done]. simpl in *.
  destruct (RETURN_SIGNALS !! z) eqn:E; [|done].
  rewrite bool_decide_true in H1 by eauto. done.
Qed.

(** An executed trial of the byte-diff minimizer that does not end with a
    code of the table never lets the pass go on. *)
Lemma byte_diff_trial_quiet_raises (w : World (list byte)) p outdir start_at
    pos st b :
  start_at ≤ iteration st →
  crash st !! pos = Some b →
  (pos < length (template st))%nat →
  exits_quietly RETURN_SIGNALS w p (iteration st) →
  ∃ st', g_trial RETURN_SIGNALS w p outdir start_at pos st
         = Fail AttributeError st'
         ∧ diff st' = diff st ∧ template st' = template st.
Proof.
  intros Hs Hc Hl Hq. unfold g_trial.
  destruct (Z.leb_spec start_at (iteration st)); [|lia].
  rewrite Hc. rewrite decide_True by done.
  destruct (Hq (Py.fmt_s_s (command p) (mktemp w (iteration st)))
               (<[pos:=b]> (template st))) as [H1 H2].
  rewrite byte_diff_condition_quiet by done. eauto.
Qed.

End Verdict.

(** C2 (the code departs from the claim).  In the line minimizer, with a
    crash directory configured, the directory empty after the run and the
    exit code 0, which is no crash, the condition of lines 483-484 holds:
    [crash_file_exists] compares the listing itself with 0.  The trial is
    taken as a crash and the line is removed. *)
Theorem empty_marker_directory_counts_as_crash :
  let w : World string :=
    Sample.world (Sample.always (Some 0)) Sample.with_crash_path in
  ∃ lp,
    CLineMinimizer_read_configuration true (cfg_at w 0) "target" = Ok lp
    ∧ crash_path lp = Some "/tmp/crashes"
    ∧ listdir w 0 = []
    ∧ in_return_signals Sample.signals
        (execute_command w (base lp) 0 "prog /tmp/tmpfile.bin -x" "") = false
    ∧ crash_condition Sample.signals (signal (base lp))
        (execute_command w (base lp) 0 "prog /tmp/tmpfile.bin -x" "")
        (CLineMinimizer_crash_file_exists w lp 0) = Ok true
    ∧ l_template (run_state
        (CLineMinimizer_do_try Sample.signals true w "target" "out" 0 3
           lp ["only line"])) = [].
Proof. eexists. repeat split; reflexivity. Qed.

(** C10 (the code departs from the claim).  In the byte-diff minimizer the
    evaluation of the condition of lines 310-312 raises: with the exit code 0
    it reaches the call of [crash_file_exists], which [CGenericMinimizer]
    does not define ([AttributeError]); with the exit code 77 matched by the
    configured signal only, the log line looks 77 up in the table
    ([KeyError]). *)
Theorem byte_diff_verdict_raises :
  (∃ st, CGenericMinimizer_do_try Sample.signals
           (Sample.world (Sample.always (Some 0)) Sample.with_timeout)
           Sample.profile "out" 0 [0%nat] [Byte.x00] {[ 0%nat := Byte.x01 ]}
         = Fail AttributeError st)
  ∧ (∃ st, CGenericMinimizer_do_try Sample.signals
           (Sample.world (Sample.always (Some 77)) Sample.with_timeout)
           (Sample.profile_signal 77) "out" 0 [0%nat] [Byte.x00]
           {[ 0%nat := Byte.x01 ]}
         = Fail KeyError st).
Proof. split; eexists; reflexivity. Qed.

(** ** The byte-diff minimizer *)

Section ByteDiffFacts.

Variable RETURN_SIGNALS : gmap Z string.
Variable w : World (list byte).
Variable p : Profile.
Variable outdir : string.
Variable start_at : Z.

Local Abbreviation trial := (g_trial RETURN_SIGNALS w p outdir start_at).
Local Abbreviation inner_pass := (g_inner_pass RETURN_SIGNALS w p outdir start_at).
Local Abbreviation round := (g_round RETURN_SIGNALS w p outdir start_at).
Local Abbreviation rounds := (g_rounds RETURN_SIGNALS w p outdir start_at).

(** A trial and a pass work on a copy of the template. *)
Lemma same_buffers_refl st : same_buffers st st.
Proof. done. Qed.

Lemma same_buffers_trans st1 st2 st3 :
  same_buffers st1 st2 → same_buffers st2 st3 → same_buffers st1 st3.
Proof. unfold same_buffers. intros (?&?&?) (?&?&?). split_and!; congruence. Qed.

Lemma g_trial_same_buffers pos st :
  same_buffers st (step_state (trial pos st)).
Proof. unfold g_trial. repeat case_match; done. Qed.

Lemma g_inner_pass_same_buffers ps st :
  same_buffers st (step_state (inner_pass ps st)).
Proof.
  revert st. induction ps as [|pos ps IH]; intros st; simpl; [done|].
  pose proof (g_trial_same_buffers pos st) as Ht.
  destruct (trial pos st) as [st'| |]; simpl in *; [|done..].
  eapply same_buffers_trans; [exact Ht|apply IH].
Qed.

(** *** Trials below [start_at] *)

Lemma g_trial_skipped pos st :
  iteration st < start_at →
  trial pos st = Next (g_set_iteration (iteration st + 1) st).
Proof.
  intros H. unfold g_trial.
  destruct (Z.leb_spec start_at (iteration st)); [lia|done].
Qed.

(** A pass whose trials are all below [start_at] runs nothing and counts
    them all. *)
Lemma g_inner_pass_skipped ps st :
  iteration st + Z.of_nat (length ps) ≤ start_at →
  inner_pass ps st
  = Next (g_set_iteration (iteration st + Z.of_nat (length ps)) st).
Proof.
  revert st. induction ps as [|pos ps IH]; intros st H; simpl in *.
  - destruct st; unfold g_set_iteration; simpl. f_equal. f_equal. lia.
  - rewrite g_trial_skipped by lia. rewrite IH by (simpl; lia).
    unfold g_set_iteration; simpl. f_equal. f_equal. lia.
Qed.

(** *** The change made part of the template *)


(** The hypotheses of C5 on the last offset hold along a run that
    starts from what [read_crash] builds. *)
Lemma read_crash_known tmp d acc c :
  read_crash tmp d acc = Ok c →
  (∀ v, v ∈ d → is_Some (c !! v))
  ∧ (∀ v, is_Some (acc !! v) → is_Some (c !! v)).
Proof.
  revert acc. induction d as [|pos d IH]; intros acc H; simpl in H.
  - inversion H; subst. split; [intros v Hv; by apply elem_of_nil in Hv|done].
  - destruct (tmp !! pos) as [b|] eqn:E; [|done].
    destruct (IH _ H) as [H1 H2]. split.
    + intros v [->|Hv]%elem_of_cons; [|by apply H1].
      apply H2. rewrite lookup_insert_eq. eauto.
    + intros v Hv. apply H2. destruct (decide (pos = v)) as [->|Hne].
      * rewrite lookup_insert_eq. eauto.
      * by rewrite lookup_insert_ne.
Qed.

Lemma g_round_known st st2 :
  offsets_known st → round st = Next st2 → offsets_known st2.
Proof.
  intros [Hnd Hk] Hr. unfold g_round in Hr.
  pose proof (g_inner_pass_same_buffers (diff st) st) as Hsame.
  destruct (inner_pass (diff st) st) as [st1| |]; [|done..].
  destruct Hsame as (Hd1 & Ht1 & Hc1). simpl in *.
  unfold g_bake in Hr. rewrite Hd1, Hc1, Ht1 in Hr.
  destruct (last (diff st)) as [v|] eqn:El; [|done].
  apply last_Some in El as [d Hd]. rewrite Hd in Hr, Hnd, Hk.
  rewrite removelast_last in Hr.
  apply NoDup_app in Hnd as (Hnd & Hnot & _).
  assert (Hv : v ∉ d). { intros Hin. apply (Hnot _ Hin). set_solver. }
  destruct (crash st !! v) as [b|] eqn:Ec.
  - destruct (decide _); [|done]. inversion Hr; subst; simpl.
    split; [done|]. intros u Hu. simpl.
    rewrite lookup_delete_ne by (intros ->; done).
    apply Hk. set_solver.
  - destruct (Hk v) as [? ?]; [set_solver|congruence].
Qed.

(** *** Every trial a crash *)



(** *** Offsets outside [diff] *)

Lemma run_hook_contents {C} (P : C → Prop) hook (tr : list (event C)) :
  Forall (event_contents P) tr →
  Forall (event_contents P) (run_hook hook tr).
Proof.
  intros H. unfold run_hook. destruct hook; [|done].
  apply Forall_app. split; [done|]. by repeat constructor.
Qed.

Lemma g_trial_frame i d0 t0 pos st :
  i ∉ d0 → pos ∈ d0 →
  g_frame i d0 t0 st → g_frame i d0 t0 (step_state (trial pos st)).
Proof.
  intros Hi Hpos (Hd & [Ht Hlen] & Htr).
  assert (Hne : pos ≠ i) by (intros ->; done).
  assert (Hbuf : ∀ b, untouched i t0 (<[pos := b]> (template st))).
  { intros b. split; [by rewrite list_lookup_insert_ne|by rewrite length_insert]. }
  assert (Hex : ∀ it cmd b,
    Forall (event_contents (untouched i t0))
      (run_hook (post_command p)
         (run_hook (pre_command p) (trace st)
          ++ [EvExec it cmd (<[pos := b]> (template st))]))).
  { intros. apply run_hook_contents, Forall_app. split.
    - by apply run_hook_contents.
    - repeat constructor; apply Hbuf. }
  unfold g_trial. repeat case_match; simpl; split_and!; try done.
  all: try apply Hex.
  apply Forall_app. split; [apply Hex|]. repeat constructor; apply Hbuf.
Qed.

Lemma g_inner_pass_frame i d0 t0 ps st :
  i ∉ d0 → ps ⊆ d0 →
  g_frame i d0 t0 st → g_frame i d0 t0 (step_state (inner_pass ps st)).
Proof.
  intros Hi. revert st. induction ps as [|pos ps IH]; intros st Hps Hf;
    simpl; [done|].
  assert (Hpos : pos ∈ d0) by set_solver.
  pose proof (g_trial_frame i d0 t0 pos st Hi Hpos Hf) as Ht.
  destruct (trial pos st) as [st'| |]; simpl in *; [|done..].
  apply IH; [set_solver|done].
Qed.

Lemma g_bake_frame i d0 t0 st :
  i ∉ d0 →
  g_frame i d0 t0 st → g_frame i d0 t0 (step_state (g_bake st)).
Proof.
  intros Hi (Hd & [Ht Hlen] & Htr). unfold g_bake.
  destruct (last (diff st)) as [v|] eqn:El; simpl; [|done].
  apply last_Some in El as [d Hdv].
  assert (Hsub : removelast (diff st) ⊆ d0).
  { rewrite Hdv, removelast_last. rewrite Hdv in Hd. set_solver. }
  assert (Hv : v ≠ i).
  { intros ->. apply Hi, Hd. rewrite Hdv. set_solver. }
  repeat case_match; unfold g_frame, untouched; simpl; split_and!; try done.
  - by rewrite list_lookup_insert_ne.
  - by rewrite length_insert.
Qed.

Lemma g_round_frame i d0 t0 st :
  i ∉ d0 →
  g_frame i d0 t0 st → g_frame i d0 t0 (step_state (round st)).
Proof.
  intros Hi Hf. unfold g_round.
  pose proof (g_inner_pass_frame i d0 t0 (diff st) st Hi (proj1 Hf) Hf) as H.
  destruct (inner_pass (diff st) st) as [st1| |]; simpl in *; [|done..].
  by apply g_bake_frame.
Qed.

Lemma g_rounds_frame i d0 t0 n st :
  i ∉ d0 →
  g_frame i d0 t0 st → g_frame i d0 t0 (step_state (rounds n st)).
Proof.
  intros Hi. revert st. induction n as [|n IH]; intros st Hf; simpl; [done|].
  pose proof (g_round_frame i d0 t0 st Hi Hf) as H.
  destruct (round st) as [st'| |]; simpl in *; [|done..].
  by apply IH.
Qed.

(** C8.  For an offset [i] that is not listed in [diff], at the end of a
    byte-diff run, however it ends, and after any number of its rounds, the
    template holds at [i] the byte of the template file and has its length,
    and so does every candidate that was run and the one that was
    written. *)
Theorem byte_diff_touches_diff_only (d : list nat) (t : list byte)
    (c : gmap nat byte) (i : nat) :
  i ∉ d →
  (let st' := step_state
                (CGenericMinimizer_do_try RETURN_SIGNALS w p outdir start_at
                   d t c) in
   template st' !! i = t !! i
   ∧ length (template st') = length t
   ∧ Forall (event_contents (untouched i t)) (trace st'))
  ∧ ∀ n,
      let st' := step_state
                   (rounds n {| diff := d; template := t; crash := c;
                                iteration := 0; trace := [] |}) in
      template st' !! i = t !! i
      ∧ length (template st') = length t
      ∧ Forall (event_contents (untouched i t)) (trace st').
Proof.
  intros Hi.
  assert (H0 : g_frame i d t {| diff := d; template := t; crash := c;
                                iteration := 0; trace := [] |}).
  { split_and!; simpl; done. }
  assert (Hn : ∀ n,
    let st' := step_state
                 (rounds n {| diff := d; template := t; crash := c;
                              iteration := 0; trace := [] |}) in
    template st' !! i = t !! i
    ∧ length (template st') = length t
    ∧ Forall (event_contents (untouched i t)) (trace st')).
  { intros n. pose proof (g_rounds_frame i d t n _ Hi H0) as (_ & [? ?] & ?).
    simpl. done. }
  split; [apply Hn|exact Hn].
Qed.

End ByteDiffFacts.


Lemma byte_diff_touches_diff_only_witness :
  let st' := step_state
               (CGenericMinimizer_do_try Sample.signals
                  (Sample.world (Sample.always (Some 139)) Sample.with_timeout)
                  Sample.profile "out" 1 [0; 1]%nat
                  [Byte.x00; Byte.x00; Byte.x07]
                  {[ 0%nat := Byte.x01; 1%nat := Byte.x02 ]}) in
  template st' !! 2%nat = Some Byte.x07
  ∧ Forall (event_contents (untouched 2 [Byte.x00; Byte.x00; Byte.x07]))
      (trace st').
Proof.
  destruct (byte_diff_touches_diff_only Sample.signals
              (Sample.world (Sample.always (Some 139)) Sample.with_timeout)
              Sample.profile "out" 1 [0; 1]%nat
              [Byte.x00; Byte.x00; Byte.x07]
              {[ 0%nat := Byte.x01; 1%nat := Byte.x02 ]} 2%nat)
    as [(Ht & _ & Htr) _].
  - intros H. repeat (apply elem_of_cons in H as [H|H]; [discriminate H|]).
    by apply elem_of_nil in H.
  - split; [exact Ht|exact Htr].
Defined.

(** C6 (the code departs from the claim).  With a subject that never
    crashes (exit code 0 at every trial) the byte-diff minimizer does not
    come to the end of its rounds with [diff] empty: its first trial ends
    the run with the [AttributeError] of line 311, and [diff] still holds
    its offset. *)
Theorem byte_diff_no_crash_raises :
  ∃ st,
    CGenericMinimizer_do_try Sample.signals
      (Sample.world (Sample.always (Some 0)) Sample.with_timeout)
      Sample.profile "out" 0 [0; 1]%nat [Byte.x00; Byte.x00]
      {[ 0%nat := Byte.x01; 1%nat := Byte.x02 ]}
    = Fail AttributeError st
    ∧ diff st = [0; 1]%nat
    ∧ trace st = [EvExec 0 "prog @@ -x /tmp/tmpfile" [Byte.x01; Byte.x00]].
Proof. eexists. split; [reflexivity|]. split; reflexivity. Qed.

(** ** The line minimizer *)

Section LineFacts.

Variable RETURN_SIGNALS : gmap Z string.
Variable has_pykd : bool.
Variable w : World string.
Variable section : string.
Variable outdir : string.

Local Abbreviation read_cfg :=
  (fun it => CLineMinimizer_read_configuration has_pykd (cfg_at w it) section).
Local Abbreviation trial := (l_trial RETURN_SIGNALS has_pykd w section outdir).
Local Abbreviation pass := (l_pass RETURN_SIGNALS has_pykd w section outdir).
Local Abbreviation while := (l_while RETURN_SIGNALS has_pykd w section outdir).

(** *** The span removed *)

Lemma randint_range it a b k :
  randint w it a b = Ok k → a ≤ k ≤ b.
Proof.
  unfold randint. destruct (Z.ltb_spec b a); [done|].
  intros [= <-].
  pose proof (Z.mod_pos_bound (random_source w it) (b - a + 1)). lia.
Qed.

Lemma randint_ok it a b :
  a ≤ b → ∃ k, randint w it a b = Ok k ∧ a ≤ k ≤ b.
Proof.
  intros H. unfold randint. destruct (Z.ltb_spec b a); [lia|].
  eexists. split; [reflexivity|].
  pose proof (Z.mod_pos_bound (random_source w it) (b - a + 1)). lia.
Qed.

Lemma lines_to_remove_nonneg lp it loops total cur k :
  lines_to_remove w lp it loops total cur = Ok k →
  0 ≤ lines_to_rip lp → 0 ≤ k.
Proof.
  unfold lines_to_remove. destruct (_ && _).
  - intros H%randint_range. lia.
  - intros [= <-]. done.
Qed.

(** In the first loop of a run that is not line per line, the number of
    lines is drawn between 1 and the percentage of what is left. *)
Lemma lines_to_remove_first_loop lp it total cur :
  line_per_line lp = false → 0 ≤ lines_percent lp → cur ≤ total →
  ∃ k, lines_to_remove w lp it 0 total cur = Ok k
       ∧ 1 ≤ k ≤ Z.max 1 ((total - cur) * lines_percent lp / 100).
Proof.
  intros Hl Hp Hc. unfold lines_to_remove. rewrite Hl. simpl.
  assert (0 ≤ (total - cur) * lines_percent lp / 100)
    by (apply Z.div_pos; nia).
  destruct (Z.eqb_spec ((total - cur) * lines_percent lp / 100) 0) as [E|E].
  - destruct (randint_ok it 1 1) as (k & -> & ?); [lia|].
    exists k. split; [done|]. lia.
  - destruct (randint_ok it 1 ((total - cur) * lines_percent lp / 100))
      as (k & -> & ?); [lia|].
    exists k. split; [done|]. lia.
Qed.

Lemma lines_to_remove_fixed lp it loops total cur :
  loops ≠ 0 ∨ line_per_line lp = true →
  lines_to_remove w lp it loops total cur = Ok (lines_to_rip lp).
Proof.
  unfold lines_to_remove. intros [H|H].
  - destruct (Z.eqb_spec loops 0); done.
  - rewrite H. by rewrite andb_false_r.
Qed.

(** Deleting a span that does not start before the buffer and is not of
    negative length leaves a sub-sequence of the buffer. *)
Lemma rip_sublist cur k (lines : list string) :
  0 ≤ cur → 0 ≤ k → rip cur k lines `sublist_of` lines.
Proof.
  intros Hc Hk. unfold rip, Py.slice_to, Py.slice_from.
  destruct (Z.ltb_spec cur 0); [lia|].
  destruct (Z.ltb_spec (cur + k) 0); [lia|].
  set (n := Z.of_nat (length lines)).
  set (a := Z.to_nat (Z.min cur n)).
  set (b := Z.to_nat (Z.min (cur + k) n)).
  assert (Hab : (a ≤ b)%nat) by lia.
  rewrite <- (take_drop a lines) at 3.
  apply sublist_app; [done|].
  replace b with (a + (b - a))%nat by lia.
  rewrite <- drop_drop. apply sublist_drop.
Qed.


(** *** The buffer never grows *)

Lemma run_hook_written {C} (P : C → Prop) hook (tr : list (event C)) :
  Forall (written P) tr → Forall (written P) (run_hook hook tr).
Proof.
  intros H. unfold run_hook. destruct hook; [|done].
  apply Forall_app. split; [done|]. by repeat constructor.
Qed.

Lemma gated_hook_written (P : string → Prop) i n hook tr tr' :
  gated_hook i n hook tr = Ok tr' →
  Forall (written P) tr → Forall (written P) tr'.
Proof.
  unfold gated_hook, Py.mod_. destruct (n =? 0); [done|]. simpl.
  intros [= <-] H. destruct (_ =? 0); [by apply run_hook_written|done].
Qed.

Lemma l_trial_shrinks T0 total i st :
  (∀ lp, read_cfg (l_iteration st) = Ok lp → 0 ≤ lines_to_rip lp) →
  0 ≤ l_current_line st →
  l_template (step_state (trial total i st)) `sublist_of` l_template st
  ∧ 0 ≤ l_current_line (step_state (trial total i st))
  ∧ (l_template st `sublist_of` T0 →
     Forall (written (λ content,
       ∃ l, content = Py.join l ∧ l `sublist_of` T0)) (l_trace st) →
     Forall (written (λ content,
       ∃ l, content = Py.join l ∧ l `sublist_of` T0))
       (l_trace (step_state (trial total i st)))).
Proof.
  intros Hcfg Hcur. unfold l_trial.
  destruct (read_cfg (l_iteration st)) as [lp|e] eqn:Ec; simpl; [|done].
  specialize (Hcfg lp eq_refl).
  destruct (_ <=? _); simpl; [done|].
  destruct (lines_to_remove _ _ _ _ _ _) as [k|e] eqn:Ek; simpl; [|done].
  apply lines_to_remove_nonneg in Ek; [|done].
  pose proof (rip_sublist (l_current_line st) k (l_template st) Hcur Ek)
    as Hrip.
  destruct (gated_hook i (pre_iterations _) _ _) as [tr1|e] eqn:E1; simpl;
    [|done].
  set (ev := EvExec _ _ _).
  assert (Htr2 : Forall (written (λ content,
            ∃ l, content = Py.join l ∧ l `sublist_of` T0)) (l_trace st) →
          Forall (written (λ content,
            ∃ l, content = Py.join l ∧ l `sublist_of` T0)) (tr1 ++ [ev])).
  { intros Htr. apply Forall_app. split; [|by repeat constructor].
    by eapply gated_hook_written. }
  destruct (gated_hook i (post_iterations _) _ _) as [tr3|e] eqn:E3; simpl;
    [|by auto].
  destruct (crash_condition _ _ _ _) as [[]|e]; simpl.
  - split_and!; [done..|]. intros Hsub Htr.
    apply Forall_app. split.
    + eapply gated_hook_written; [exact E3|auto].
    + repeat constructor. simpl. eexists. split; [done|]. by etrans.
  - split_and!; [done|lia|]. intros Hsub Htr.
    eapply gated_hook_written; [exact E3|auto].
  - split_and!; [done..|]. intros Hsub Htr.
    eapply gated_hook_written; [exact E3|auto].
Qed.

Lemma l_pass_shrinks T0 total n i st :
  (∀ it lp, read_cfg it = Ok lp → 0 ≤ lines_to_rip lp) →
  l_shrunk T0 st →
  l_shrunk T0 (step_state (pass total n i st)).
Proof.
  intros Hcfg. revert i st. induction n as [|n IH]; intros i st Hs; simpl;
    [done|].
  destruct Hs as (Hsub & Hcur & Htr).
  destruct (l_trial_shrinks T0 total i st (Hcfg _) Hcur) as (H1 & H2 & H3).
  specialize (H3 Hsub Htr).
  assert (Hs' : l_shrunk T0 (step_state (trial total i st))).
  { split_and!; [by etrans|done..]. }
  destruct (trial total i st) as [st'|st'|e st']; simpl in *; [|done..].
  by apply IH.
Qed.

Lemma l_while_shrinks T0 fuel st :
  (∀ it lp, read_cfg it = Ok lp → 0 ≤ lines_to_rip lp) →
  l_shrunk T0 st →
  l_shrunk T0 (run_state (while fuel st)).
Proof.
  intros Hcfg. revert st. induction fuel as [|fuel IH]; intros st Hs; simpl;
    [done|].
  assert (Hs0 : l_shrunk T0 (l_set_current_line 0 st)).
  { destruct Hs as (? & ? & ?). split_and!; simpl; done. }
  pose proof (l_pass_shrinks T0 (Z.of_nat (length (l_template st)))
                (length (l_template st)) 0 _ Hcfg Hs0) as Hp.
  destruct (pass _ _ _ _) as [st'|st'|e st']; simpl in *; [| |done].
  - destruct (_ =? _); simpl.
    + destruct Hp as (? & ? & ?). split_and!; simpl; [done..|].
      apply Forall_app. split; [done|]. repeat constructor. simpl. eauto.
    + apply IH. destruct Hp as (? & ? & ?). split_and!; simpl; done.
  - destruct (_ =? _); simpl.
    + destruct Hp as (? & ? & ?). split_and!; simpl; [done..|].
      apply Forall_app. split; [done|]. repeat constructor. simpl. eauto.
    + apply IH. destruct Hp as (? & ? & ?). split_and!; simpl; done.
Qed.

(** C9, as amended.  When no configuration read during the run asks for a
    negative number of lines, the buffer never grows: a trial leaves a
    sub-sequence of the buffer it found, so a buffer that is not longer;
    and however the run ends, the buffer is a sub-sequence of the input and
    every file written holds the lines of a sub-sequence of the input, so
    not more lines than the input. *)
Theorem line_buffer_never_grows start_at fuel lp0 (T0 : list string) :
  (∀ it lp, read_cfg it = Ok lp → 0 ≤ lines_to_rip lp) →
  (∀ total i st,
     0 ≤ l_current_line st →
     l_template (step_state (trial total i st)) `sublist_of` l_template st
     ∧ (length (l_template (step_state (trial total i st)))
        ≤ length (l_template st))%nat)
  ∧ let st' := run_state
                 (CLineMinimizer_do_try RETURN_SIGNALS has_pykd w section
                    outdir start_at fuel lp0 T0) in
    l_template st' `sublist_of` T0
    ∧ (length (l_template st') ≤ length T0)%nat
    ∧ Forall (written (λ content,
         ∃ l, content = Py.join l ∧ l `sublist_of` T0
              ∧ (length l ≤ length T0)%nat)) (l_trace st').
Proof.
  intros Hcfg. split.
  - intros total i st Hcur.
    destruct (l_trial_shrinks T0 total i st (Hcfg _) Hcur) as (H & _ & _).
    split; [done|]. by apply sublist_length.
  - assert (Hs : l_shrunk T0
              {| l_template := T0; l_profile := lp0; l_iteration := 0;
                 l_loops := 0; l_current_line := 0; l_trace := [] |}).
    { split_and!; simpl; done. }
    destruct (l_while_shrinks T0 fuel _ Hcfg Hs) as (H1 & _ & H3).
    unfold CLineMinimizer_do_try. simpl.
    split_and!; [done|by apply sublist_length|].
    eapply Forall_impl; [exact H3|].
    intros [] ?; simpl in *; try done.
    destruct H as (l & -> & Hl). exists l. split_and!; try done.
    by apply sublist_length.
Qed.

(** *** One trial, taken as a crash or not *)


Lemma lines_to_remove_ok lp it loops total cur :
  percent_ok lp → cur ≤ total →
  ∃ k, lines_to_remove w lp it loops total cur = Ok k.
Proof.
  intros Hp Hc. destruct (line_per_line lp) eqn:El.
  - rewrite lines_to_remove_fixed by auto. eauto.
  - destruct (decide (loops = 0)) as [->|Hl].
    + destruct (lines_to_remove_first_loop lp it total cur)
        as (k & -> & _); auto. eauto.
    + rewrite lines_to_remove_fixed by auto. eauto.
Qed.



(** *** Every trial a crash *)



(** *** No trial a crash *)



End LineFacts.



(** ** Resumption *)

Lemma line_do_try_start_at RS has_pykd w section outdir start_at fuel lp0 T0 :
  CLineMinimizer_do_try RS has_pykd w section outdir start_at fuel lp0 T0
  = CLineMinimizer_do_try RS has_pykd w section outdir 0 fuel lp0 T0.
Proof. reflexivity. Qed.

(** C3 (the code departs from the claim).  The byte-diff minimizer skips
    the trials below [start_at] (see [g_trial_skipped]); the line minimizer
    does not: started with [start_at = 1], it runs the subject at the trial of
    index 0, and the whole run is the one of [start_at = 0]. *)
Theorem line_minimizer_runs_trials_below_start_at :
  let w : World string :=
    Sample.world (Sample.always (Some 0)) Sample.with_timeout in
  let r := CLineMinimizer_do_try Sample.signals true w "target" "out" 1 3
             Sample.line_profile ["first"; "second"] in
  EvExec 0 "prog /tmp/tmpfile.bin -x" "second" ∈ l_trace (run_state r)
  ∧ r = CLineMinimizer_do_try Sample.signals true w "target" "out" 0 3
          Sample.line_profile ["first"; "second"].
Proof.
  split; [|reflexivity]. vm_compute. apply list_elem_of_here.
Qed.

(** ** The two constant oracles *)




(** ** The length of the line buffer *)

Lemma line_buffer_never_grows_witness :
  let st' := run_state
               (CLineMinimizer_do_try Sample.signals true
                  (Sample.world (Sample.always (Some 139)) Sample.with_timeout)
                  "target" "out" 0 3 Sample.line_profile ["first"; "second"]) in
  (length (l_template st') ≤ 2)%nat
  ∧ Forall (written (λ content,
       ∃ l, content = Py.join l ∧ l `sublist_of` ["first"; "second"]
            ∧ (length l ≤ 2)%nat)) (l_trace st').
Proof.
  destruct (line_buffer_never_grows Sample.signals true
              (Sample.world (Sample.always (Some 139)) Sample.with_timeout)
              "target" "out" 0 3 Sample.line_profile ["first"; "second"])
    as [_ (_ & Hlen & Htr)].
  - intros it lp H. vm_compute in H. injection H as <-. simpl. lia.
  - split; [exact Hlen|exact Htr].
Defined.

(** The claim C9 as stated fails when the configuration asks for -1 lines:
    at the cursor 1 the candidate [lines[:1] + lines[0:]] has one line more
    than the buffer; taken as a crash, it becomes the buffer, and the file
    written at the end has three lines for an input of two. *)
Lemma negative_rip_grows_buffer :
  let r := CLineMinimizer_do_try Sample.signals true
             (Sample.world (Sample.only_at 1 139) Sample.negative_rip)
             "target" "out" 0 4 Sample.negative_line_profile ["a"; "b"] in
  finished r = true
  ∧ l_template (run_state r) = ["a"; "a"; "b"]
  ∧ ¬ (length (l_template (run_state r)) ≤ length ["a"; "b"])%nat
  ∧ last (l_trace (run_state r)) = Some (EvWrite "out/da39a3ee.bin" "aab").
Proof.
  split; [vm_compute; reflexivity|]. split; [vm_compute; reflexivity|].
  split; [|vm_compute; reflexivity].
  assert (E : length (l_template (run_state
            (CLineMinimizer_do_try Sample.signals true
               (Sample.world (Sample.only_at 1 139) Sample.negative_rip)
               "target" "out" 0 4 Sample.negative_line_profile ["a"; "b"])))
          = 3%nat) by (vm_compute; reflexivity).
  intros H. rewrite E in H. simpl in H. lia.
Qed.

(** * Further properties of the code *)

(** ** Resolution of a profile *)







(** X4.  The debugger interface of a resolved profile follows from the
    [debugging-interface] option alone: without a recorded interface name
    it is [vtrace_iface]; it is [pykd_iface] only if the module could be
    imported and the name is [pykd], and [gdb_iface] only if that name is
    [gdb]. *)
Theorem resolved_interface has_pykd (cfg : option config_file) section p :
  read_configuration has_pykd cfg section = Ok p →
  (debugging_interface p = None → iface p = vtrace_iface)
  ∧ (iface p = pykd_iface →
     has_pykd = true ∧ debugging_interface p = Some "pykd")
  ∧ (iface p = gdb_iface → debugging_interface p = Some "gdb").
Proof.
  intros H. unfold read_configuration in H.
  destruct cfg as [parser|]; [|done].
  destruct (parser !! section) as [opts|]; [|done].
  destruct (opts !! "command") as [c|]; simpl in H; [|done].
  destruct (opts !! "extension") as [e|]; simpl in H; [|done].
  destruct (pyval_lower _) as [low|]; simpl in H; [|done].
  destruct (if bool_decide (low ≠ "auto") then _ else _) as [tm|];
    simpl in H; [|done].
  injection H as <-. simpl. unfold read_iface.
  destruct (opts !! "debugging-interface") as [d|]; simpl; [|done].
  repeat case_bool_decide; subst; destruct has_pykd; simpl; done.
Qed.

Lemma resolved_interface_witness :
  iface Sample.profile = vtrace_iface.
Proof.
  destruct (resolved_interface true (Some (Sample.file Sample.with_timeout))
              "target" Sample.profile) as (H1 & _); [reflexivity|].
  apply H1. reflexivity.
Defined.



(** ** The subject's return code *)

(** X6.  With a debugger interface configured, [execute_command] returns
    nothing or the code 0xC0000005 and never the subject's own return code;
    so such a trial matches the signal table only if the table holds
    0xC0000005. *)
Theorem debugger_return_code {C} RS (w : World C) p d it cmd (c : C) :
  debugging_interface p = Some d →
  (execute_command w p it cmd c = None
   ∨ execute_command w p it cmd c = Some 3221225477)
  ∧ (in_return_signals RS (execute_command w p it cmd c) = true →
     is_Some (RS !! 3221225477)
     ∧ iface_main w it (iface p) cmd c = true).
Proof.
  intros Hd. unfold execute_command. rewrite Hd.
  destruct (iface_main w it (iface p) cmd c); simpl.
  - split; [by right|]. intros H%bool_decide_eq_true. done.
  - split; [by left|done].
Qed.

Lemma debugger_return_code_witness :
  execute_command
    (Sample.world (Sample.always (Some 139)) Sample.with_timeout)
    Fixtures.profile_gdb 0 "prog /tmp/tmpfile" "" = None
  ∨ execute_command
      (Sample.world (Sample.always (Some 139)) Sample.with_timeout)
      Fixtures.profile_gdb 0 "prog /tmp/tmpfile" "" = Some 3221225477.
Proof.
  destruct (debugger_return_code Sample.signals
              (Sample.world (Sample.always (Some 139)) Sample.with_timeout)
              Fixtures.profile_gdb "gdb" 0 "prog /tmp/tmpfile" "")
    as [H _]; [reflexivity|exact H].
Defined.

(** ** Reading the diff and the crashing file *)

Lemma string_app_cons a s t : String a s +:+ t = String a (s +:+ t).
Proof. reflexivity. Qed.

Lemma string_app_nil_r s : s +:+ "" = s.
Proof.
  induction s as [|a s IH]; [done|]. by rewrite string_app_cons, IH.
Qed.

Lemma string_app_assoc s1 s2 s3 : (s1 +:+ s2) +:+ s3 = s1 +:+ (s2 +:+ s3).
Proof.
  induction s1 as [|a s1 IH]; [done|]. by rewrite !string_app_cons, IH.
Qed.

Lemma rev_app_append s1 s2 : String.rev_app s1 s2 = String.rev s1 +:+ s2.
Proof.
  unfold String.rev. revert s2.
  induction s1 as [|a s1 IH]; intros s2; simpl; [done|].
  rewrite IH, (IH (String a "")). by rewrite string_app_assoc.
Qed.

Lemma rev_cons a s : String.rev (String a s) = String.rev s +:+ String a "".
Proof. unfold String.rev at 1. simpl. apply rev_app_append. Qed.

Lemma rev_append s1 s2 :
  String.rev (s1 +:+ s2) = String.rev s2 +:+ String.rev s1.
Proof.
  induction s1 as [|a s1 IH].
  - by rewrite string_app_nil_r.
  - by rewrite string_app_cons, !rev_cons, IH, string_app_assoc.
Qed.

Lemma rev_involutive s : String.rev (String.rev s) = s.
Proof.
  induction s as [|a s IH]; [done|].
  by rewrite rev_cons, rev_append, IH.
Qed.

Lemma all_digits_append s1 s2 :
  Py.all_digits (s1 +:+ s2) = Py.all_digits s1 && Py.all_digits s2.
Proof.
  induction s1 as [|a s1 IH]; [done|].
  rewrite string_app_cons. simpl. by rewrite IH, andb_assoc.
Qed.

Lemma all_digits_rev s : Py.all_digits (String.rev s) = Py.all_digits s.
Proof.
  induction s as [|a s IH]; [done|].
  rewrite rev_cons, all_digits_append, IH. simpl.
  by rewrite andb_true_r, andb_comm.
Qed.

Lemma digit_not_space a : Py.is_digit a = true → Ascii.is_space a = false.
Proof.
  destruct a as [[] [] [] [] [] [] [] []]; simpl; done.
Qed.

Lemma lstrip_digits s : Py.all_digits s = true → Py.lstrip s = s.
Proof.
  destruct s as [|a s]; [done|]. simpl.
  intros [Ha _]%andb_true_iff. by rewrite digit_not_space.
Qed.

Lemma strip_digits s : Py.all_digits s = true → Py.strip s = s.
Proof.
  intros H. unfold Py.strip. rewrite (lstrip_digits s H).
  rewrite lstrip_digits by (by rewrite all_digits_rev).
  apply rev_involutive.
Qed.

Lemma digits_value_nonneg s acc z :
  0 ≤ acc → Py.digits_value acc s = Some z → 0 ≤ z.
Proof.
  revert acc. induction s as [|a s IH]; intros acc Hacc; simpl.
  - intros [= <-]. done.
  - destruct (Ascii.is_nat a) as [d|]; [|done]. apply IH. lia.
Qed.

Lemma digits_value_total s acc :
  Py.all_digits s = true → ∃ z, Py.digits_value acc s = Some z.
Proof.
  revert acc. induction s as [|a s IH]; intros acc; simpl; [eauto|].
  unfold Py.is_digit. destruct (Ascii.is_nat a) as [d|]; [|done].
  simpl. apply IH.
Qed.

(** [int()] on a string that passed [isdigit()] *)
Lemma int_of_digits s :
  Py.isdigit s = true →
  ∃ z, Py.int s = Ok z ∧ 0 ≤ z ∧ Py.digits_value 0 s = Some z.
Proof.
  intros H. assert (Hd : Py.all_digits s = true) by (by destruct s).
  unfold Py.int. rewrite strip_digits by done.
  destruct (digits_value_total s 0 Hd) as [z Hz].
  exists z. split_and!; [|by eapply digits_value_nonneg|done].
  destruct s as [|a s]; [done|].
  assert (Ha : Py.is_digit a = true) by (simpl in Hd; by destruct (Py.is_digit a)).
  assert (Hu : Py.unsigned_value (String a s) = Ok z).
  { unfold Py.unsigned_value. by rewrite Hz. }
  destruct a as [[] [] [] [] [] [] [] []]; simpl in Ha; try done; exact Hu.
Qed.

Lemma read_diff_acc lines acc :
  ∃ d, read_diff lines acc = Ok (acc ++ d) ∧ Forall (λ z, 0 ≤ z) d.
Proof.
  revert acc. induction lines as [|line lines IH]; intros acc; simpl.
  - exists []. by rewrite app_nil_r.
  - destruct (starts_with_hash line); [apply IH|].
    destruct (Py.isdigit _) eqn:E; [|apply IH].
    destruct (int_of_digits _ E) as (z & -> & Hz & _). simpl.
    destruct (IH (acc ++ [z])) as (d & -> & Hd).
    exists (z :: d). rewrite <- app_assoc. split; [done|]. by constructor.
Qed.

(** X7.  [read_diff] never raises, whatever the lines of the file: a line
    is only converted after [isdigit()].  Every offset it yields is a
    non-negative integer, so no offset indexes a buffer from its end. *)
Theorem read_diff_total (lines : list string) :
  ∃ d, read_diff lines [] = Ok d ∧ Forall (λ z, 0 ≤ z) d.
Proof. destruct (read_diff_acc lines []) as (d & H & Hd). eauto. Qed.

Lemma digits_value_append s1 s2 acc :
  Py.digits_value acc (s1 +:+ s2)
  = Py.digits_value acc s1 ≫= λ a, Py.digits_value a s2.
Proof.
  revert acc. induction s1 as [|a s1 IH]; intros acc; [done|].
  rewrite string_app_cons. simpl.
  destruct (Ascii.is_nat a); [apply IH|done].
Qed.

Lemma pretty_N_char_digit d :
  (d < 10)%N → Ascii.is_nat (pretty_N_char d) = Some (N.to_nat d).
Proof.
  intros H.
  assert (Hd : (d = 0 ∨ d = 1 ∨ d = 2 ∨ d = 3 ∨ d = 4 ∨ d = 5 ∨ d = 6
                ∨ d = 7 ∨ d = 8 ∨ d = 9)%N) by lia.
  repeat (destruct Hd as [->|Hd]; [reflexivity|]). by subst.
Qed.

Lemma pretty_N_go_append x s : pretty_N_go x s = pretty_N_go x "" +:+ s.
Proof.
  revert s. induction (N.lt_wf_0 x) as [x _ IH]; intros s.
  destruct (decide (x = 0)%N) as [->|Hx]; [by rewrite !pretty_N_go_0|].
  rewrite !(pretty_N_go_step x) by lia.
  assert (Hlt : (x `div` 10 < x)%N) by (apply N.div_lt; lia).
  rewrite (IH _ Hlt (String _ s)), (IH _ Hlt (String _ "")).
  by rewrite string_app_assoc.
Qed.

Lemma pretty_N_go_value x :
  Py.digits_value 0 (pretty_N_go x "") = Some (Z.of_N x)
  ∧ Py.all_digits (pretty_N_go x "") = true.
Proof.
  induction (N.lt_wf_0 x) as [x _ IH].
  destruct (decide (x = 0)%N) as [->|Hx]; [by rewrite !pretty_N_go_0|].
  rewrite (pretty_N_go_step x) by lia.
  assert (Hlt : (x `div` 10 < x)%N) by (apply N.div_lt; lia).
  destruct (IH _ Hlt) as [Hv Hd].
  assert (Hm : (x `mod` 10 < 10)%N) by (apply N.mod_lt; lia).
  rewrite pretty_N_go_append, digits_value_append, all_digits_append, Hv, Hd.
  simpl. unfold Py.is_digit. rewrite pretty_N_char_digit by done. simpl.
  split; [|done]. f_equal.
  pose proof (N.div_mod x 10). lia.
Qed.

Lemma pretty_N_digits (n : N) :
  Py.digits_value 0 (pretty n) = Some (Z.of_N n)
  ∧ Py.isdigit (pretty n) = true.
Proof.
  unfold pretty, pretty_N. destruct (decide (n = 0)%N) as [->|Hn]; [done|].
  destruct (pretty_N_go_value n) as [Hv Hd]. split; [done|].
  rewrite (pretty_N_go_step n) in * by lia.
  rewrite pretty_N_go_append in *.
  destruct (pretty_N_go (n `div` 10) ""); exact Hd.
Qed.

Lemma lstrip_char_digits c s :
  Py.is_digit c = false → Py.all_digits s = true → lstrip_char c s = s.
Proof.
  intros Hc. destruct s as [|a s]; [done|]. simpl.
  intros [Ha _]%andb_true_iff. case_bool_decide; [congruence|done].
Qed.

(** A line of digits keeps its digits and loses the terminator [c]. *)
Lemma strip_char_line c s :
  Py.is_digit c = false → Py.isdigit s = true →
  strip_char c s = s ∧ strip_char c (s +:+ String c "") = s.
Proof.
  intros Hc Hs. assert (Hd : Py.all_digits s = true) by (by destruct s).
  assert (Hr : Py.all_digits (String.rev s) = true)
    by (by rewrite all_digits_rev).
  unfold strip_char. split.
  - rewrite (lstrip_char_digits c s) by done.
    rewrite (lstrip_char_digits c (String.rev s)) by done.
    apply rev_involutive.
  - assert (H1 : lstrip_char c (s +:+ String c "") = s +:+ String c "").
    { destruct s as [|a s]; [done|]. rewrite string_app_cons. simpl.
      simpl in Hd. apply andb_true_iff in Hd as [Ha _].
      case_bool_decide; [congruence|done]. }
    rewrite H1, rev_append.
    change (String.rev (String c "")) with (String c "").
    rewrite string_app_cons. simpl. rewrite bool_decide_true by done.
    change ("" +:+ String.rev s) with (String.rev s).
    rewrite (lstrip_char_digits c (String.rev s)) by done.
    apply rev_involutive.
Qed.

Lemma starts_with_hash_digits s t :
  Py.isdigit s = true → starts_with_hash (s +:+ t) = false.
Proof.
  destruct s as [|a s]; [done|]. intros H. simpl in H.
  apply andb_true_iff in H as [Ha _].
  change (String a s +:+ t) with (String a (s +:+ t)).
  destruct a as [[] [] [] [] [] [] [] []]; simpl in *; done.
Qed.

Lemma read_diff_cons line rest acc :
  read_diff (line :: rest) acc
  = if starts_with_hash line then read_diff rest acc
    else if Py.isdigit (strip_char "013" (strip_char "010" line)) then
           z ← Py.int (strip_char "013" (strip_char "010" line));
           read_diff rest (acc ++ [z])
         else read_diff rest acc.
Proof. reflexivity. Qed.

Lemma read_diff_decimal_lines (ns : list N) acc :
  read_diff ((λ n : N, pretty n +:+ newline) <$> ns) acc
  = Ok (acc ++ (Z.of_N <$> ns)).
Proof.
  revert acc. induction ns as [|n ns IH]; intros acc.
  - simpl. by rewrite app_nil_r.
  - rewrite !fmap_cons, read_diff_cons.
    destruct (pretty_N_digits n) as [Hv Hd].
    rewrite starts_with_hash_digits by done. unfold newline.
    destruct (strip_char_line "010" (pretty n)) as [_ ->]; [done..|].
    destruct (strip_char_line "013" (pretty n)) as [-> _]; [done..|].
    rewrite Hd. destruct (int_of_digits _ Hd) as (z & -> & _ & Hz).
    simpl. fold newline. rewrite IH, <- app_assoc. simpl.
    do 3 f_equal. congruence.
Qed.

(** X8.  A diff file that lists offsets in decimal, one per line, is read
    back as these offsets, in order. *)
Theorem read_diff_round_trip (ns : list N) :
  read_diff ((λ n : N, pretty n +:+ newline) <$> ns) [] = Ok (Z.of_N <$> ns).
Proof. apply read_diff_decimal_lines. Qed.

Lemma read_diff_skips line lines acc :
  starts_with_hash line = true
  ∨ Py.isdigit (strip_char "013" (strip_char "010" line)) = false →
  read_diff (line :: lines) acc = read_diff lines acc.
Proof.
  intros [H|H]; simpl.
  - by rewrite H.
  - destruct (starts_with_hash line); [done|]. by rewrite H.
Qed.

Lemma read_diff_app l1 l2 acc :
  read_diff (l1 ++ l2) acc = read_diff l1 acc ≫= read_diff l2.
Proof.
  revert acc. induction l1 as [|line l1 IH]; intros acc; simpl; [done|].
  destruct (starts_with_hash line); [apply IH|].
  destruct (Py.isdigit _) eqn:E; [|apply IH].
  destruct (int_of_digits _ E) as (z & -> & _). simpl. apply IH.
Qed.

(** X9.  A comment line and a line that is no number after its terminator
    is removed (an empty line, a signed number, a number with spaces) leave
    the offsets read from a diff file as they are, wherever the line stands
    in the file. *)
Theorem read_diff_ignores_line (before after : list string) line :
  starts_with_hash line = true
  ∨ Py.isdigit (strip_char "013" (strip_char "010" line)) = false →
  read_diff (before ++ line :: after) [] = read_diff (before ++ after) [].
Proof.
  intros H. rewrite !read_diff_app.
  destruct (read_diff before []) as [acc|]; simpl; [|done].
  by apply read_diff_skips.
Qed.

Lemma read_diff_ignores_line_witness :
  read_diff (["3" +:+ newline] ++ ("-4" +:+ newline) :: ["5" +:+ newline]) []
  = read_diff (["3" +:+ newline] ++ ["5" +:+ newline]) [].
Proof.
  apply (read_diff_ignores_line ["3" +:+ newline] ["5" +:+ newline]
           ("-4" +:+ newline)).
  right. reflexivity.
Defined.

Lemma read_crash_lookup (tmp : list byte) (d : list nat) acc c :
  read_crash tmp d acc = Ok c →
  ∀ pos, c !! pos = if decide (pos ∈ d) then tmp !! pos else acc !! pos.
Proof.
  revert acc. induction d as [|pos0 d IH]; intros acc H pos; simpl in H.
  - injection H as <-. rewrite decide_False; [done|]. apply not_elem_of_nil.
  - destruct (tmp !! pos0) as [b|] eqn:E; [|done].
    rewrite (IH _ H pos).
    destruct (decide (pos ∈ d)) as [Hin|Hout].
    + rewrite decide_True; [done|]. by right.
    + destruct (decide (pos0 = pos)) as [->|Hne].
      * rewrite lookup_insert_eq, decide_True; [done|]. by left.
      * rewrite lookup_insert_ne by done.
        rewrite decide_False; [done|].
        intros [->|?]%elem_of_cons; done.
Qed.

Lemma read_crash_in_range (tmp : list byte) (d : list nat) acc :
  (∀ pos, pos ∈ d → (pos < length tmp)%nat) →
  ∃ c, read_crash tmp d acc = Ok c.
Proof.
  revert acc. induction d as [|pos0 d IH]; intros acc H; simpl; [eauto|].
  destruct (lookup_lt_is_Some_2 tmp pos0) as [b ->].
  { apply H. by left. }
  apply IH. intros pos Hpos. apply H. by right.
Qed.

Lemma read_crash_out_of_range (tmp : list byte) (d : list nat) acc pos :
  pos ∈ d → (length tmp ≤ pos)%nat →
  read_crash tmp d acc = Raise IndexError.
Proof.
  revert acc. induction d as [|pos0 d IH]; intros acc Hin Hlen; simpl.
  - by apply elem_of_nil in Hin.
  - destruct (tmp !! pos0) as [b|] eqn:E; [|done].
    apply elem_of_cons in Hin as [->|Hin]; [|by apply IH].
    apply lookup_lt_Some in E. lia.
Qed.

(** X10.  The crash byte map built by [read_crash] has exactly the offsets
    of [diff] as keys, and at each of them the byte of the crashing file. *)
Theorem read_crash_map (tmp : list byte) (d : list nat) c :
  read_crash tmp d ∅ = Ok c →
  ∀ pos, c !! pos = if decide (pos ∈ d) then tmp !! pos else None.
Proof.
  intros H pos. rewrite (read_crash_lookup tmp d ∅ c H pos).
  by rewrite lookup_empty.
Qed.

Lemma read_crash_map_witness :
  ({[ 0%nat := Byte.x01; 2%nat := Byte.x03 ]} : gmap nat byte) !! 2%nat
  = if decide (2%nat ∈ [0; 2]%nat)
    then [Byte.x01; Byte.x02; Byte.x03] !! 2%nat else None.
Proof.
  apply (read_crash_map [Byte.x01; Byte.x02; Byte.x03] [0; 2]%nat).
  vm_compute. reflexivity.
Defined.

(** X11.  [minimize] reaches the trials exactly when every offset of [diff]
    lies inside the crashing file; otherwise it ends with an [IndexError]
    before any trial, whatever the template. *)
Theorem minimize_needs_offsets_in_crash_file RS (w : World (list byte)) p
    outdir start_at (t crashing : list byte) (d : list nat) :
  ((∀ pos, pos ∈ d → (pos < length crashing)%nat) ↔
   ∃ r, CGenericMinimizer_minimize RS w p outdir start_at t crashing d = Ok r)
  ∧ ((∃ pos, pos ∈ d ∧ (length crashing ≤ pos)%nat) ↔
     CGenericMinimizer_minimize RS w p outdir start_at t crashing d
     = Raise IndexError).
Proof.
  unfold CGenericMinimizer_minimize. split; split.
  - intros H. destruct (read_crash_in_range crashing d ∅ H) as [c ->].
    simpl. eauto.
  - intros [r H] pos Hpos.
    destruct (decide (pos < length crashing)%nat) as [|Hge]; [done|].
    rewrite (read_crash_out_of_range crashing d ∅ pos) in H by (done || lia).
    done.
  - intros (pos & Hpos & Hlen).
    by rewrite (read_crash_out_of_range crashing d ∅ pos).
  - intros H.
    destruct (decide (Forall (λ pos, pos < length crashing)%nat d))
      as [Hall|Hex].
    + rewrite Forall_forall in Hall.
      destruct (read_crash_in_range crashing d ∅ Hall) as [c Hc].
      rewrite Hc in H. done.
    + apply not_Forall_Exists in Hex; [|apply _].
      apply Exists_exists in Hex as (pos & Hpos & Hlen).
      exists pos. split; [done|]. simpl in Hlen. lia.
Qed.

(** ** The byte-diff minimizer: what a run executes and writes *)

Section ByteDiffRuns.

Variable RETURN_SIGNALS : gmap Z string.
Variable w : World (list byte).
Variable p : Profile.
Variable outdir : string.
Variable start_at : Z.

Local Abbreviation trial := (g_trial RETURN_SIGNALS w p outdir start_at).
Local Abbreviation inner_pass :=
  (g_inner_pass RETURN_SIGNALS w p outdir start_at).
Local Abbreviation round := (g_round RETURN_SIGNALS w p outdir start_at).
Local Abbreviation rounds := (g_rounds RETURN_SIGNALS w p outdir start_at).
Local Abbreviation do_try :=
  (CGenericMinimizer_do_try RETURN_SIGNALS w p outdir start_at).

Lemma executed_app {C} (tr1 tr2 : list (event C)) :
  executed (tr1 ++ tr2) = executed tr1 ++ executed tr2.
Proof. apply omap_app. Qed.

Lemma executed_run_hook {C} hook (tr : list (event C)) :
  executed (run_hook hook tr) = executed tr.
Proof.
  unfold run_hook. destruct hook; [|done].
  rewrite executed_app. simpl. by rewrite app_nil_r.
Qed.

Lemma last_written_snoc {C} (tr : list (event C)) ev :
  last_written (tr ++ [ev])
  = match ev with EvWrite _ c => Some c | _ => last_written tr end.
Proof. unfold last_written. by rewrite foldl_snoc. Qed.

Lemma last_written_run_hook {C} hook (tr : list (event C)) :
  last_written (run_hook hook tr) = last_written tr.
Proof.
  unfold run_hook. destruct hook; [|done]. by rewrite last_written_snoc.
Qed.

(** The condition of the byte-diff minimizer is never false. *)
Lemma byte_diff_condition_not_false sig ret :
  crash_condition RETURN_SIGNALS sig ret CGenericMinimizer_crash_file_exists
  ≠ Ok false.
Proof. unfold crash_condition. by repeat case_match. Qed.

(** What a trial can be: skipped or left out, with nothing run; or run, and
    then the last of the pass. *)
Lemma g_trial_cases pos st :
  (∃ it, trial pos st = Next (g_set_iteration it st))
  ∨ (trial pos st = Fail IndexError st)
  ∨ (start_at ≤ iteration st
     ∧ ∃ b tr,
         crash st !! pos = Some b
         ∧ (pos < length (template st))%nat
         ∧ tr = run_hook (post_command p)
                  (run_hook (pre_command p) (trace st)
                   ++ [EvExec (iteration st)
                         (Py.fmt_s_s (command p) (mktemp w (iteration st)))
                         (<[pos := b]> (template st))])
         ∧ ((∃ e, trial pos st = Fail e (g_set_trace tr st))
            ∨ trial pos st
              = Break (g_set_trace
                         (tr ++ [EvWrite
                                   (Py.path_join outdir
                                      (Py.fmt_ss
                                         (sha1_hex w (<[pos := b]> (template st)))
                                         (extension p)))
                                   (<[pos := b]> (template st))])
                         (g_set_trace tr st)))).
Proof.
  unfold g_trial.
  destruct (Z.leb_spec start_at (iteration st)) as [Hs|Hs]; [|eauto].
  destruct (crash st !! pos) as [b|] eqn:Ec.
  2:{ left. exists (iteration st). by destruct st. }
  destruct (decide _) as [Hl|Hl]; [|eauto].
  right. right. split; [done|]. eexists b, _. split_and!; try done.
  pose proof (byte_diff_condition_not_false (signal p)
    (execute_command w p (iteration st)
       (Py.fmt_s_s (command p) (mktemp w (iteration st)))
       (<[pos := b]> (template st)))) as Hnf.
  destruct (crash_condition _ _ _ _) as [[]|e]; [|done|eauto].
  destruct (caught_signal_name _ _); eauto.
Qed.

Lemma run_hook_events {C} hook (tr : list (event C)) :
  run_hook hook tr = tr ++ hook_events hook.
Proof.
  unfold run_hook, hook_events. destruct hook; [done|]. by rewrite app_nil_r.
Qed.

Lemma g_trial_ending pos st :
  pos ∈ diff st →
  g_ending w p outdir start_at (trace st) (trial pos st)
  ∧ same_buffers st (step_state (trial pos st))
  ∧ iteration st ≤ iteration (step_state (trial pos st)).
Proof.
  intros Hpos.
  pose proof (g_trial_same_buffers RETURN_SIGNALS w p outdir start_at pos st)
    as Hsame.
  split; [|split; [done|]].
  - destruct (g_trial_cases pos st)
      as [[it ->]|[->|(Hs & b & tr & Hc & Hl & -> & [[e ->]| ->])]]; simpl.
    + done.
    + by left.
    + right. exists pos, b. split; [done|]. split; [done|].
      rewrite !run_hook_events. unfold g_trial_events.
      by rewrite <- !app_assoc.
    + exists pos, b. split; [done|]. split; [done|].
      rewrite !run_hook_events. unfold g_trial_events.
      by rewrite <- !app_assoc.
  - unfold g_trial. repeat case_match; simpl; lia.
Qed.

Lemma g_inner_pass_ending ps st :
  ps ⊆ diff st →
  g_ending w p outdir start_at (trace st) (inner_pass ps st)
  ∧ iteration st ≤ iteration (step_state (inner_pass ps st)).
Proof.
  revert st. induction ps as [|pos ps IH]; intros st Hps; simpl; [done|].
  assert (Hpos : pos ∈ diff st) by (apply Hps; by left).
  destruct (g_trial_ending pos st Hpos) as (He & (Hd & _ & _) & Hi).
  destruct (trial pos st) as [st1| |]; simpl in *; [|done..].
  destruct (IH st1) as [He1 Hi1].
  { rewrite Hd. intros x Hx. apply Hps. by right. }
  rewrite He in He1. split; [done|lia].
Qed.

Lemma g_bake_trace st :
  trace (step_state (g_bake st)) = trace st
  ∧ iteration (step_state (g_bake st)) = iteration st
  ∧ (∀ st', g_bake st ≠ Break st')
  ∧ (∀ st', g_bake st = Next st' → ∃ v, diff st = diff st' ++ [v]).
Proof.
  unfold g_bake. destruct (last (diff st)) as [v|] eqn:El; simpl; [|done].
  apply last_Some in El as [d Hd].
  repeat case_match; simpl; split_and!; try done.
  all: intros st' [= <-]; simpl; exists v; by rewrite Hd, removelast_last.
Qed.

Lemma g_round_ending st :
  g_ending w p outdir start_at (trace st) (round st)
  ∧ iteration st ≤ iteration (step_state (round st))
  ∧ (∀ st', round st = Next st' → ∃ v, diff st = diff st' ++ [v]).
Proof.
  unfold g_round.
  destruct (g_inner_pass_ending (diff st) st) as [He Hi]; [done|].
  pose proof (g_inner_pass_same_buffers RETURN_SIGNALS w p outdir start_at
                (diff st) st) as (Hd & _ & _).
  destruct (inner_pass (diff st) st) as [st1| |]; simpl in *; [|done..].
  destruct (g_bake_trace st1) as (Ht & Hit & Hnb & Hn).
  rewrite <- Hd.
  destruct (g_bake st1) as [st2|st2|e st2]; simpl in *.
  - split_and!; [congruence|lia|]. intros st' [= <-]. by apply Hn.
  - by destruct (Hnb st2).
  - split_and!; [left; congruence|lia|done].
Qed.

Lemma g_rounds_ending n st :
  g_ending w p outdir start_at (trace st) (rounds n st)
  ∧ iteration st ≤ iteration (step_state (rounds n st))
  ∧ (∀ st', rounds n st = Next st' →
       (length (diff st') + n = length (diff st))%nat).
Proof.
  revert st. induction n as [|n IH]; intros st; simpl.
  - split_and!; [done|lia|]. intros st' [= <-]. lia.
  - destruct (g_round_ending st) as (He & Hi & Hn).
    destruct (round st) as [st1| |]; simpl in *; [|done..].
    destruct (IH st1) as (He1 & Hi1 & Hn1). rewrite He in He1.
    split_and!; [done|lia|].
    intros st' Hr. specialize (Hn1 st' Hr).
    destruct (Hn st1 eq_refl) as [v ->]. rewrite length_app. simpl. lia.
Qed.

Lemma executed_trial_events it buf :
  executed (g_trial_events w p it buf) = [it].
Proof.
  unfold g_trial_events, hook_events.
  destruct (pre_command p), (post_command p); reflexivity.
Qed.

Lemma last_written_app_no_write {C} (tr1 tr2 : list (event C)) :
  Forall (written (λ _, False)) tr2 →
  last_written (tr1 ++ tr2) = last_written tr1.
Proof.
  induction tr2 as [|ev tr2 IH] using rev_ind; intros H.
  - by rewrite app_nil_r.
  - apply Forall_app in H as [H1 H2]. rewrite app_assoc, last_written_snoc.
    inversion H2 as [|? ? Hev _]; subst. destruct ev; simpl in *; auto. done.
Qed.

Lemma trial_events_no_write it buf :
  Forall (written (λ _ : list byte, False)) (g_trial_events w p it buf).
Proof.
  unfold g_trial_events, hook_events.
  destruct (pre_command p), (post_command p); repeat constructor.
Qed.

(** X12.  A byte-diff run runs the subject at most once, and never at a
    trial below [start_at]: the trial that runs it ends the run, with
    success or with an exception. *)
Theorem byte_diff_runs_subject_at_most_once (d : list nat) (t : list byte)
    (c : gmap nat byte) :
  let tr := trace (step_state
                     (CGenericMinimizer_do_try RETURN_SIGNALS w p outdir
                        start_at d t c)) in
  executed tr = []
  ∨ ∃ it, executed tr = [it] ∧ start_at ≤ it ∧ 0 ≤ it.
Proof.
  unfold CGenericMinimizer_do_try.
  set (st0 := {| diff := d; template := t; crash := c; iteration := 0;
                 trace := [] |}).
  destruct (g_rounds_ending (length d) st0) as (He & Hi & _).
  destruct (rounds (length d) st0) as [st|st|e st]; simpl in *.
  - left. by rewrite He.
  - destruct He as (pos & b & _ & Hs & ->). right.
    exists (iteration st). rewrite !executed_app, executed_trial_events.
    simpl. done.
  - destruct He as [->|(pos & b & _ & Hs & ->)]; [by left|right].
    exists (iteration st). rewrite executed_trial_events. done.
Qed.

(** X13.  A byte-diff run writes a file only when it ends with success, and
    then exactly one: the candidate it has just run, which is the template
    with one offset of [diff] set to its crash byte, written under the hash of
    its content and the configured extension in [outdir]. *)
Theorem byte_diff_writes_crashing_candidate (d : list nat) (t : list byte)
    (c : gmap nat byte) :
  match CGenericMinimizer_do_try RETURN_SIGNALS w p outdir start_at d t c with
  | Break st =>
      ∃ pos b,
        pos ∈ diff st ∧ crash st !! pos = Some b
        ∧ (pos < length (template st))%nat
        ∧ trace st
          = g_trial_events w p (iteration st) (<[pos := b]> (template st))
            ++ [EvWrite
                  (Py.path_join outdir
                     (Py.fmt_ss (sha1_hex w (<[pos := b]> (template st)))
                        (extension p)))
                  (<[pos := b]> (template st))]
        ∧ last_written (trace st) = Some (<[pos := b]> (template st))
  | Next st => trace st = [] ∧ diff st = []
  | Fail e st => last_written (trace st) = None
  end.
Proof.
  unfold CGenericMinimizer_do_try.
  set (st0 := {| diff := d; template := t; crash := c; iteration := 0;
                 trace := [] |}).
  destruct (g_rounds_ending (length d) st0) as (He & _ & Hn).
  destruct (rounds (length d) st0) as [st|st|e st]; simpl in *.
  - split; [done|]. specialize (Hn st eq_refl).
    apply length_zero_iff_nil. lia.
  - destruct He as (pos & b & (Hpos & Hc & Hl) & Hs & Ht).
    exists pos, b. split_and!; try done.
    rewrite Ht, last_written_snoc. done.
  - destruct He as [->|(pos & b & _ & _ & ->)]; [done|].
    apply (last_written_app_no_write []), trial_events_no_write.
Qed.


Lemma g_baked_same_buffers d0 c0 st st' :
  same_buffers st st' → g_baked d0 c0 st → g_baked d0 c0 st'.
Proof. intros (Hd & Ht & Hc). unfold g_baked. by rewrite Hd, Ht, Hc. Qed.

Lemma g_bake_baked d0 c0 st st' :
  g_bake st = Next st' → g_baked d0 c0 st → g_baked d0 c0 st'.
Proof.
  intros Hb [Hsub Hall]. unfold g_bake in Hb.
  destruct (last (diff st)) as [v|] eqn:El; [|done].
  apply last_Some in El as [dd Hd]. rewrite Hd, removelast_last in Hb.
  destruct (crash st !! v) as [bv|] eqn:Ec.
  - destruct (decide _) as [Hl|]; [|done]. injection Hb as <-.
    split; simpl.
    + intros u b Hu. apply Hsub.
      destruct (decide (v = u)) as [->|Hne];
        [by rewrite lookup_delete_eq in Hu|by rewrite lookup_delete_ne in Hu].
    + intros u b Hu Hcu.
      destruct (decide (v = u)) as [->|Hne].
      * right. rewrite list_lookup_insert_eq by done.
        apply Hsub in Ec. congruence.
      * destruct (Hall u b Hu Hcu) as [[Hin Hcr]|Ht].
        -- left. rewrite lookup_delete_ne by done. split; [|done].
           rewrite Hd in Hin. apply elem_of_app in Hin as [|Hin]; [done|].
           apply list_elem_of_singleton in Hin. congruence.
        -- right. by rewrite list_lookup_insert_ne.
  - injection Hb as <-. split; simpl; [done|].
    intros u b Hu Hcu. destruct (Hall u b Hu Hcu) as [[Hin Hcr]|Ht]; [|by right].
    left. split; [|done].
    rewrite Hd in Hin. apply elem_of_app in Hin as [|Hin]; [done|].
    apply list_elem_of_singleton in Hin. congruence.
Qed.

Lemma g_rounds_baked d0 c0 n st st' :
  rounds n st = Next st' → g_baked d0 c0 st → g_baked d0 c0 st'.
Proof.
  revert st. induction n as [|n IH]; intros st Hr Hb; simpl in Hr.
  - by injection Hr as <-.
  - unfold g_round in Hr.
    pose proof (g_inner_pass_same_buffers RETURN_SIGNALS w p outdir start_at
                  (diff st) st) as Hsame.
    destruct (inner_pass (diff st) st) as [st1| |]; [|done..].
    simpl in Hsame.
    destruct (g_bake st1) as [st2| |] eqn:Eb; [|done..].
    apply (IH st2 Hr). eapply g_bake_baked; [exact Eb|].
    by eapply g_baked_same_buffers.
Qed.

(** X14.  When a byte-diff run ends without success ("could not minimize"),
    every offset has left [diff] and the template holds the crash byte at
    every offset of the original [diff] that had one: all the changes have
    been made part of the template, whose length has not changed. *)
Theorem byte_diff_exhausted_template (d : list nat) (t : list byte)
    (c : gmap nat byte) st :
  CGenericMinimizer_do_try RETURN_SIGNALS w p outdir start_at d t c
  = Next st →
  diff st = []
  ∧ length (template st) = length t
  ∧ ∀ v b, v ∈ d → c !! v = Some b → template st !! v = Some b.
Proof.
  intros Hr. unfold CGenericMinimizer_do_try in Hr.
  set (st0 := {| diff := d; template := t; crash := c; iteration := 0;
                 trace := [] |}) in *.
  destruct (g_rounds_ending (length d) st0) as (_ & _ & Hn).
  specialize (Hn st Hr). simpl in Hn.
  assert (Hd : diff st = []) by (apply length_zero_iff_nil; lia).
  assert (Hb0 : g_baked d c st0).
  { split; simpl; [done|]. intros v b Hv Hc. by left. }
  destruct (g_rounds_baked d c _ _ _ Hr Hb0) as [_ Hall].
  split_and!; [done| |].
  - assert (Hlen : ∀ n s s', rounds n s = Next s' →
              length (template s') = length (template s)).
    { clear. induction n as [|n IH]; intros s s' H; simpl in H.
      - by injection H as <-.
      - unfold g_round in H.
        pose proof (g_inner_pass_same_buffers RETURN_SIGNALS w p outdir
                      start_at (diff s) s) as (_ & Ht & _).
        destruct (inner_pass (diff s) s) as [s1| |]; [|done..].
        simpl in Ht. destruct (g_bake s1) as [s2| |] eqn:Eb; [|done..].
        rewrite (IH _ _ H), <- Ht. unfold g_bake in Eb.
        repeat case_match; simplify_eq; simpl; by rewrite ?length_insert. }
    apply (Hlen _ _ _ Hr).
  - intros v b Hv Hc. destruct (Hall v b Hv Hc) as [[Hin _]|Ht]; [|done].
    rewrite Hd in Hin. by apply elem_of_nil in Hin.
Qed.

Lemma triangle_nonneg n : 0 ≤ triangle n.
Proof. induction n; simpl; lia. Qed.

Lemma g_rounds_skipped n st :
  length (diff st) = n →
  (∀ v, v ∈ diff st → (v < length (template st))%nat) →
  iteration st + triangle n ≤ start_at →
  ∃ st', rounds n st = Next st'
         ∧ trace st' = trace st
         ∧ iteration st' = iteration st + triangle n
         ∧ diff st' = [].
Proof.
  revert st. induction n as [|n IH]; intros st Hlen Hin Hs.
  - exists st. simpl. split_and!; try done; [lia|].
    by apply length_zero_iff_nil.
  - pose proof (triangle_nonneg n) as Hn. simpl in Hs.
    cbn [g_rounds]. unfold g_round.
    rewrite g_inner_pass_skipped by lia.
    destruct (diff st) as [|x l] eqn:Ed using rev_ind; [done|]. clear IHl.
    rewrite length_app in Hlen. simpl in Hlen.
    assert (Hb : ∃ st1, g_bake (g_set_iteration
                   (iteration st + Z.of_nat (length (l ++ [x]))) st) = Next st1
               ∧ diff st1 = l ∧ trace st1 = trace st
               ∧ iteration st1 = iteration st + Z.of_nat (S n)
               ∧ length (template st1) = length (template st)).
    { unfold g_bake. simpl. rewrite Ed, last_snoc, removelast_last.
      rewrite length_app. simpl.
      assert (Hx : (x < length (template st))%nat).
      { apply Hin. apply elem_of_app. right. by left. }
      destruct (crash st !! x).
      - rewrite decide_True by done. eexists. split; [done|]. simpl.
        split_and!; try done; [lia|]. by rewrite length_insert.
      - eexists. split; [done|]. simpl. split_and!; try done. lia. }
    destruct Hb as (st1 & -> & Hd1 & Ht1 & Hi1 & Hl1).
    destruct (IH st1) as (st' & Hr & Ht' & Hi' & Hd'); try lia.
    { rewrite Hd1. lia. }
    { intros v Hv. rewrite Hl1. apply Hin. rewrite Hd1 in Hv.
      apply elem_of_app. by left. }
    exists st'. split_and!; [done|congruence| |done].
    change (triangle (S n)) with (Z.of_nat (S n) + triangle n). lia.
Qed.

(** X15.  Resumption past the last trial: when [start_at] is not below the
    number of trials of the run, [n + (n-1) + ... + 1] for [n] offsets that
    lie inside the template, no trial runs the subject, the round structure
    is walked through all the same, every trial counted, and the run ends
    without success. *)
Theorem byte_diff_resumed_past_the_end (d : list nat) (t : list byte)
    (c : gmap nat byte) :
  (∀ v, v ∈ d → (v < length t)%nat) →
  triangle (length d) ≤ start_at →
  ∃ st, CGenericMinimizer_do_try RETURN_SIGNALS w p outdir start_at d t c = Next st
        ∧ trace st = []
        ∧ iteration st = triangle (length d)
        ∧ diff st = [].
Proof.
  intros Hin Hs. unfold CGenericMinimizer_do_try.
  destruct (g_rounds_skipped (length d)
              {| diff := d; template := t; crash := c; iteration := 0;
                 trace := [] |}) as (st & Hr & Ht & Hi & Hd); simpl; try done.
  exists st. split_and!; try done.
Qed.

End ByteDiffRuns.

Lemma byte_diff_exhausted_template_witness :
  let st := {| diff := []; template := [Byte.x01; Byte.x02]; crash := ∅;
               iteration := 3; trace := [] |} in
  diff st = [] ∧ template st !! 1%nat = Some Byte.x02.
Proof.
  intros st.
  destruct (byte_diff_exhausted_template Sample.signals
              (Sample.world (Sample.always (Some 0)) Sample.with_timeout)
              Sample.profile "out" 5 [0; 1]%nat [Byte.x00; Byte.x00]
              {[ 0%nat := Byte.x01; 1%nat := Byte.x02 ]} st)
    as (Hd & _ & Hall); [vm_compute; reflexivity|].
  split; [exact Hd|]. apply Hall; [|reflexivity].
  apply elem_of_cons. right. apply list_elem_of_here.
Defined.

Lemma byte_diff_resumed_past_the_end_witness :
  ∃ st,
    CGenericMinimizer_do_try Sample.signals
      (Sample.world (Sample.always (Some 0)) Sample.with_timeout)
      Sample.profile "out" 3 [0; 1]%nat [Byte.x00; Byte.x00]
      {[ 0%nat := Byte.x01; 1%nat := Byte.x02 ]} = Next st
    ∧ trace st = [] ∧ iteration st = 3.
Proof.
  destruct (byte_diff_resumed_past_the_end Sample.signals
              (Sample.world (Sample.always (Some 0)) Sample.with_timeout)
              Sample.profile "out" 3 [0; 1]%nat [Byte.x00; Byte.x00]
              {[ 0%nat := Byte.x01; 1%nat := Byte.x02 ]})
    as (st & Hr & Ht & Hi & _).
  - intros v Hv. apply elem_of_cons in Hv as [->|Hv]; [simpl; lia|].
    apply elem_of_cons in Hv as [->|Hv]; [simpl; lia|].
    by apply elem_of_nil in Hv.
  - simpl. lia.
  - exists st. split; [exact Hr|]. split; [exact Ht|exact Hi].
Defined.

(** ** The line minimizer: spans, checkpoints, termination *)

Section LineRuns.

Variable RETURN_SIGNALS : gmap Z string.
Variable has_pykd : bool.
Variable w : World string.
Variable section : string.
Variable outdir : string.

Local Abbreviation read_cfg :=
  (fun it => CLineMinimizer_read_configuration has_pykd (cfg_at w it) section).
Local Abbreviation trial := (l_trial RETURN_SIGNALS has_pykd w section outdir).
Local Abbreviation pass := (l_pass RETURN_SIGNALS has_pykd w section outdir).
Local Abbreviation while := (l_while RETURN_SIGNALS has_pykd w section outdir).
Local Abbreviation do_try :=
  (CLineMinimizer_do_try RETURN_SIGNALS has_pykd w section outdir).

(** X16.  For a cursor inside the buffer and a count that is not negative,
    the candidate is the buffer without the lines [cur .. cur+k-1]: what is
    before the cursor, then what is from [cur+k] on; it has
    [min k (len - cur)] lines less than the buffer, a count beyond the end
    removing everything from the cursor on. *)
Theorem rip_deletes_span cur k (lines : list string) :
  0 ≤ cur ≤ Z.of_nat (length lines) → 0 ≤ k →
  rip cur k lines
  = take (Z.to_nat cur) lines ++ drop (Z.to_nat (cur + k)) lines
  ∧ Z.of_nat (length (rip cur k lines))
    = Z.of_nat (length lines) - Z.min k (Z.of_nat (length lines) - cur).
Proof.
  intros Hc Hk. unfold rip, Py.slice_to, Py.slice_from.
  destruct (Z.ltb_spec cur 0); [lia|].
  destruct (Z.ltb_spec (cur + k) 0); [lia|].
  set (n := Z.of_nat (length lines)) in *.
  replace (Z.to_nat (Z.min cur n)) with (Z.to_nat cur) by lia.
  assert (Hd : drop (Z.to_nat (Z.min (cur + k) n)) lines
               = drop (Z.to_nat (cur + k)) lines).
  { destruct (Z.le_gt_cases (cur + k) n).
    - f_equal. lia.
    - rewrite !drop_ge; [done|lia|lia]. }
  rewrite Hd. split; [done|].
  rewrite length_app, length_take, length_drop. lia.
Qed.

Lemma rip_deletes_span_witness :
  rip 1 2 ["a"; "b"; "c"; "d"] = ["a"; "d"].
Proof.
  destruct (rip_deletes_span 1 2 ["a"; "b"; "c"; "d"]) as [H _];
    [simpl; lia|lia|].
  exact H.
Defined.

(** X17.  The number of lines a trial removes: in the first loop of a run
    that is not line per line, with a percentage that is not negative, it is
    drawn between 1 and the larger of 1 and the percentage of the lines from
    the cursor to the end of the buffer as it was when the loop started; in
    a later loop, or line per line, it is the configured [lines-to-rip], and
    the random source is not asked. *)
Theorem lines_to_remove_bounds lp it loops total cur :
  (loops = 0 → line_per_line lp = false → 0 ≤ lines_percent lp →
   cur ≤ total →
   ∃ k, lines_to_remove w lp it loops total cur = Ok k
        ∧ 1 ≤ k ≤ Z.max 1 ((total - cur) * lines_percent lp / 100))
  ∧ (loops ≠ 0 ∨ line_per_line lp = true →
     lines_to_remove w lp it loops total cur = Ok (lines_to_rip lp)).
Proof.
  split.
  - intros -> Hl Hp Hc. by apply lines_to_remove_first_loop.
  - apply lines_to_remove_fixed.
Qed.

(** X18.  With a negative percentage, the first loop of a run that is not
    line per line cannot draw a number of lines as soon as lines are left
    after the cursor: [random.randint] is given an empty range and raises
    [ValueError]. *)
Theorem negative_percent_raises lp it total cur :
  line_per_line lp = false → lines_percent lp < 0 → cur < total →
  lines_to_remove w lp it 0 total cur = Raise ValueError.
Proof.
  intros Hl Hp Hc. unfold lines_to_remove. rewrite Hl. simpl.
  assert (Hv : (total - cur) * lines_percent lp / 100 < 0).
  { apply Z.div_lt_upper_bound; nia. }
  destruct (Z.eqb_spec ((total - cur) * lines_percent lp / 100) 0); [lia|].
  unfold randint.
  destruct (Z.ltb_spec ((total - cur) * lines_percent lp / 100) 1); [done|lia].
Qed.

Lemma gated_hook_last_written i n hook (tr tr' : list (event string)) :
  gated_hook i n hook tr = Ok tr' → last_written tr' = last_written tr.
Proof.
  unfold gated_hook, Py.mod_. destruct (n =? 0); [done|]. simpl.
  intros [= <-]. destruct (_ =? 0); [|done].
  unfold run_hook. destruct hook; [|done]. by rewrite last_written_snoc.
Qed.

(** What a trial that lets the pass go on has done. *)
Lemma l_trial_next total i st st' :
  trial total i st = Next st' →
  l_iteration st' = l_iteration st + 1
  ∧ l_loops st' = l_loops st
  ∧ read_cfg (l_iteration st) = Ok (l_profile st')
  ∧ ((l_template st' = l_template st
      ∧ l_current_line st' = l_current_line st + 1
      ∧ last_written (l_trace st') = last_written (l_trace st))
     ∨ (∃ k,
          lines_to_remove w (l_profile st') (l_iteration st) (l_loops st)
            total (l_current_line st) = Ok k
          ∧ l_template st' = rip (l_current_line st) k (l_template st)
          ∧ l_current_line st' = l_current_line st
          ∧ last (l_trace st')
            = Some (EvWrite
                      (Py.path_join outdir
                         (Py.fmt_ss "last_minimized"
                            (extension (base (l_profile st')))))
                      (Py.join (l_template st'))))).
Proof.
  unfold l_trial.
  destruct (read_cfg (l_iteration st)) as [lp|e] eqn:Ec; [|done]. simpl.
  destruct (_ <=? _); [done|].
  destruct (lines_to_remove _ _ _ _ _ _) as [k|e] eqn:Ek; [|done].
  destruct (gated_hook i (pre_iterations _) _ _) as [tr1|e] eqn:E1; [|done].
  set (ev := EvExec _ _ _).
  destruct (gated_hook i (post_iterations _) _ _) as [tr3|e] eqn:E3; [|done].
  destruct (crash_condition _ _ _ _) as [[]|e]; [| |done].
  - intros [= <-]. simpl. split_and!; try done. right.
    exists k. split_and!; try done. by rewrite last_snoc.
  - intros [= <-]. simpl. split_and!; try done. left.
    split_and!; try done.
    apply gated_hook_last_written in E1, E3.
    rewrite E3, last_written_snoc. simpl. done.
Qed.

(** X19.  A trial after which the pass goes on has either been rejected,
    and then the buffer and the file written last are what they were and the
    cursor has moved by one; or been accepted, and then the buffer is the
    candidate, the cursor has not moved, and the last thing the trial did was
    to write the new buffer to [last_minimized] with the extension of the
    configuration just read. *)
Theorem line_trial_accepts_or_advances total i st st' :
  l_trial RETURN_SIGNALS has_pykd w section outdir total i st = Next st' →
  (l_template st' = l_template st
   ∧ l_current_line st' = l_current_line st + 1
   ∧ last_written (l_trace st') = last_written (l_trace st))
  ∨ (∃ k,
       l_template st' = rip (l_current_line st) k (l_template st)
       ∧ l_current_line st' = l_current_line st
       ∧ last (l_trace st')
         = Some (EvWrite
                   (Py.path_join outdir
                      (Py.fmt_ss "last_minimized"
                         (extension (base (l_profile st')))))
                   (Py.join (l_template st')))).
Proof.
  intros H. destruct (l_trial_next total i st st' H) as (_ & _ & _ & [?|Ha]);
    [by left|right].
  destruct Ha as (k & _ & ?). eauto.
Qed.





Lemma l_pass_sublist total n i st :
  (∀ it lp, read_cfg it = Ok lp → 0 ≤ lines_to_rip lp) →
  0 ≤ l_current_line st →
  l_template (step_state (pass total n i st)) `sublist_of` l_template st.
Proof.
  intros Hcfg. revert i st. induction n as [|n IH]; intros i st Hcur; simpl;
    [done|].
  destruct (l_trial_shrinks RETURN_SIGNALS has_pykd w section outdir
              (l_template st) total i st (Hcfg _) Hcur) as (H1 & H2 & _).
  destruct (trial total i st) as [st'|st'|e st']; simpl in *; [|done..].
  etrans; [by apply IH|done].
Qed.

Lemma l_while_terminates fuel st :
  (∀ it lp, read_cfg it = Ok lp → 0 ≤ lines_to_rip lp) →
  (length (l_template st) < fuel)%nat →
  ∀ st', while fuel st ≠ Unfinished st'.
Proof.
  intros Hcfg. revert st. induction fuel as [|fuel IH]; intros st Hlen st';
    [lia|]. simpl.
  pose proof (l_pass_sublist (Z.of_nat (length (l_template st)))
                (length (l_template st)) 0 (l_set_current_line 0 st) Hcfg)
    as Hsub.
  simpl in Hsub. specialize (Hsub ltac:(lia)).
  apply sublist_length in Hsub.
  destruct (pass _ _ _ _) as [st1|st1|e st1]; simpl in *; [| |done].
  - destruct (Z.eqb_spec (Z.of_nat (length (l_template st1)))
                (Z.of_nat (length (l_template st)))); [done|].
    apply IH. simpl. lia.
  - destruct (Z.eqb_spec (Z.of_nat (length (l_template st1)))
                (Z.of_nat (length (l_template st)))); [done|].
    apply IH. simpl. lia.
Qed.

(** X21.  The line minimizer terminates when no configuration read during
    the run asks for a negative number of lines: every loop but the last
    shortens the buffer, so a run on [n] lines ends within [n + 1] loops,
    converged or with an exception. *)
Theorem line_run_terminates start_at fuel lp0 (T0 : list string) :
  (∀ it lp,
     CLineMinimizer_read_configuration has_pykd (cfg_at w it) section = Ok lp →
     0 ≤ lines_to_rip lp) →
  (length T0 < fuel)%nat →
  let r := CLineMinimizer_do_try RETURN_SIGNALS has_pykd w section outdir
             start_at fuel lp0 T0 in
  (finished r = true ∨ ∃ e st, r = Raised e st)
  ∧ l_loops (run_state r) ≤ Z.of_nat (length T0) + 1.
Proof.
  intros Hcfg Hlen. simpl. unfold CLineMinimizer_do_try.
  set (st0 := {| l_template := T0; l_profile := lp0; l_iteration := 0;
                 l_loops := 0; l_current_line := 0; l_trace := [] |}).
  split.
  - pose proof (l_while_terminates fuel st0 Hcfg Hlen) as Hnot.
    destruct (while fuel st0) as [st|e st|st]; simpl; eauto.
    by destruct (Hnot st).
  - assert (Hl : ∀ f st,
      0 ≤ l_current_line st →
      l_loops (run_state (while f st))
      ≤ l_loops st + Z.of_nat (length (l_template st)) + 1
      ∨ (length (l_template st) < f)%nat → True) by done.
    clear Hl.
    assert (Hgen : ∀ f st,
      l_loops (run_state (while f st))
      ≤ l_loops st + Z.of_nat (length (l_template st)) + 1).
    { induction f as [|f IH]; intros st; simpl; [lia|].
      pose proof (l_pass_sublist (Z.of_nat (length (l_template st)))
                    (length (l_template st)) 0 (l_set_current_line 0 st) Hcfg)
        as Hsub.
      simpl in Hsub. specialize (Hsub ltac:(lia)).
      apply sublist_length in Hsub.
      assert (Hloops : ∀ n i s,
        l_loops (step_state (pass (Z.of_nat (length (l_template st))) n i s))
        = l_loops s).
      { clear. induction n as [|n IHn]; intros i s; simpl; [done|].
        destruct (trial _ i s) as [s'|s'|e s'] eqn:Et; simpl.
        - rewrite IHn. by destruct (l_trial_next _ _ _ _ Et) as (_ & -> & _).
        - unfold l_trial in Et. repeat case_match; try done.
          by injection Et as <-.
        - unfold l_trial in Et. repeat case_match; try done;
            by injection Et as _ <-. }
      specialize (Hloops (length (l_template st)) 0 (l_set_current_line 0 st)).
      simpl in Hloops.
      destruct (pass _ _ _ _) as [st1|st1|e st1]; simpl in *; [| |lia].
      - destruct (Z.eqb_spec (Z.of_nat (length (l_template st1)))
                    (Z.of_nat (length (l_template st)))); simpl; [lia|].
        specialize (IH (l_set_loops (l_loops st1 + 1) st1)). simpl in IH. lia.
      - destruct (Z.eqb_spec (Z.of_nat (length (l_template st1)))
                    (Z.of_nat (length (l_template st)))); simpl; [lia|].
        specialize (IH (l_set_loops (l_loops st1 + 1) st1)). simpl in IH. lia. }
    specialize (Hgen fuel st0). simpl in Hgen. lia.
Qed.

Lemma l_trial_zero_interval total i st lp :
  read_cfg (l_iteration st) = Ok lp →
  percent_ok lp →
  pre_iterations (base lp) = 0 →
  l_current_line st < Z.of_nat (length (l_template st)) →
  l_current_line st ≤ total →
  ∃ st', trial total i st = Fail ZeroDivisionError st'
         ∧ l_trace st' = l_trace st ∧ l_template st' = l_template st.
Proof.
  intros Hc Hp Hz Hlt Hle. unfold l_trial. rewrite Hc. simpl.
  destruct (Z.leb_spec (Z.of_nat (length (l_template st)))
              (l_current_line st)); [lia|].
  destruct (lines_to_remove_ok w lp (l_iteration st) (l_loops st) total
              (l_current_line st) Hp Hle) as [k ->].
  unfold gated_hook, Py.mod_. rewrite Hz. simpl. eauto.
Qed.

(** X22.  A hook interval of 0 ends a run on a non-empty input at its first
    trial with a [ZeroDivisionError], before the subject is run, whether or
    not a hook command is configured: the interval is the divisor of
    [i % self.pre_iterations]. *)
Theorem zero_hook_interval_raises start_at fuel lp0 lp (T0 : list string) :
  T0 ≠ [] →
  CLineMinimizer_read_configuration has_pykd (cfg_at w 0) section = Ok lp →
  percent_ok lp →
  pre_iterations (base lp) = 0 →
  ∃ st,
    CLineMinimizer_do_try RETURN_SIGNALS has_pykd w section outdir
      start_at (S fuel) lp0 T0 = Raised ZeroDivisionError st
    ∧ l_trace st = [] ∧ l_template st = T0.
Proof.
  intros Hne Hc Hp Hz. unfold CLineMinimizer_do_try.
  destruct T0 as [|line T0]; [done|].
  set (st0 := {| l_template := line :: T0; l_profile := lp0;
                 l_iteration := 0; l_loops := 0; l_current_line := 0;
                 l_trace := [] |}).
  destruct (l_trial_zero_interval (Z.of_nat (S (length T0))) 0
              (l_set_current_line 0 st0) lp Hc Hp Hz)
    as (st' & Ht & Htr & Htm); [simpl; lia..|].
  cbn [l_while].
  change (length (l_template (l_set_current_line 0 st0)))
    with (S (length T0)).
  change (length (l_template st0)) with (S (length T0)).
  cbn [l_pass]. rewrite Ht. eauto.
Qed.

End LineRuns.

Lemma negative_percent_raises_witness :
  lines_to_remove
    (Sample.world (Sample.always (Some 0)) Fixtures.negative_percent)
    Fixtures.negative_percent_profile 0 0 40 0
  = Raise ValueError.
Proof.
  apply (negative_percent_raises
           (Sample.world (Sample.always (Some 0)) Fixtures.negative_percent)
           Fixtures.negative_percent_profile 0 40 0);
    [reflexivity|simpl; lia|lia].
Defined.

Lemma line_trial_accepts_or_advances_witness :
  let st := {| l_template := ["first"; "second"];
               l_profile := Sample.line_profile; l_iteration := 0;
               l_loops := 0; l_current_line := 0; l_trace := [] |} in
  let st' := step_state
               (l_trial Sample.signals true
                  (Sample.world (Sample.always (Some 139)) Sample.with_timeout)
                  "target" "out" 2 0 st) in
  (l_template st' = l_template st
   ∧ l_current_line st' = l_current_line st + 1
   ∧ last_written (l_trace st') = last_written (l_trace st))
  ∨ (∃ k,
       l_template st' = rip (l_current_line st) k (l_template st)
       ∧ l_current_line st' = l_current_line st
       ∧ last (l_trace st')
         = Some (EvWrite
                   (Py.path_join "out"
                      (Py.fmt_ss "last_minimized"
                         (extension (base (l_profile st')))))
                   (Py.join (l_template st')))).
Proof.
  intros st st'.
  apply (line_trial_accepts_or_advances Sample.signals true
           (Sample.world (Sample.always (Some 139)) Sample.with_timeout)
           "target" "out" 2 0 st st').
  vm_compute. reflexivity.
Defined.

Lemma line_run_terminates_witness :
  finished
    (CLineMinimizer_do_try Sample.signals true
       (Sample.world (Sample.always (Some 139)) Sample.with_timeout)
       "target" "out" 0 3 Sample.line_profile ["first"; "second"]) = true
  ∨ ∃ e st,
      CLineMinimizer_do_try Sample.signals true
        (Sample.world (Sample.always (Some 139)) Sample.with_timeout)
        "target" "out" 0 3 Sample.line_profile ["first"; "second"]
      = Raised e st.
Proof.
  destruct (line_run_terminates Sample.signals true
              (Sample.world (Sample.always (Some 139)) Sample.with_timeout)
              "target" "out" 0 3 Sample.line_profile ["first"; "second"])
    as [H _].
  - intros it lp H. vm_compute in H. injection H as <-. simpl. lia.
  - simpl. lia.
  - exact H.
Defined.

Lemma zero_hook_interval_raises_witness :
  ∃ st,
    CLineMinimizer_do_try Sample.signals true
      (Sample.world (Sample.always (Some 139)) Fixtures.zero_interval)
      "target" "out" 0 1 Sample.line_profile ["first"; "second"]
    = Raised ZeroDivisionError st
    ∧ l_trace st = [] ∧ l_template st = ["first"; "second"].
Proof.
  apply (zero_hook_interval_raises Sample.signals true
           (Sample.world (Sample.always (Some 139)) Fixtures.zero_interval)
           "target" "out" 0 0 Sample.line_profile
           Fixtures.zero_interval_profile ["first"; "second"]).
  - discriminate.
  - vm_compute. reflexivity.
  - intros _. simpl. lia.
  - reflexivity.
Defined.

(** ** The template of the line minimizer *)

(** X23.  [read_template] of the line minimizer drops exactly the lines
    that are a bare line terminator and keeps the others in their order;
    reading its own result again changes nothing. *)
Theorem read_template_drops_blank_lines (l : list string) :
  CLineMinimizer_read_template l `sublist_of` l
  ∧ (∀ line, line ∈ CLineMinimizer_read_template l
             ↔ line ∈ l ∧ line ≠ newline ∧ line ≠ crlf)
  ∧ CLineMinimizer_read_template (CLineMinimizer_read_template l)
    = CLineMinimizer_read_template l.
Proof.
  unfold CLineMinimizer_read_template. split_and!.
  - apply sublist_filter.
  - intros line. rewrite list_elem_of_filter.
    rewrite !not_elem_of_cons. split.
    + intros [(? & ? & _) ?]. done.
    + intros (? & ? & ?). split_and!; try done. apply not_elem_of_nil.
  - induction l as [|line l IH]; [done|].
    rewrite filter_cons. case_decide as Hd; [|done].
    rewrite filter_cons, decide_True by done. by rewrite IH.
Qed.

(** ** The command line *)

(** X24.  The script prints its usage exactly when it has fewer than 6
    arguments (its own name included) and does nothing at all when it has
    more than 7, which is the case of the generic mode called as the usage
    text writes it, with a crashing file, a diff file and an output
    directory. *)
Theorem script_arity (argv : list string) :
  (script argv = PrintUsage ↔ (length argv < 6)%nat)
  ∧ (script argv = NoAction ↔ (7 < length argv)%nat).
Proof.
  unfold script, main.
  repeat case_decide; repeat case_bool_decide; split; split; intros; try done;
    try lia.
Qed.

Lemma main_generic mode a b c d e o cfg section template crash_file
    diff_file output :
  main mode a b c d e o
  = GenericRun cfg section template crash_file diff_file output →
  mode = "generic" ∧ crash_file = d ∧ diff_file = e ∧ output = o.
Proof.
  unfold main. repeat case_bool_decide; try done.
  intros [= <- <- <- <- <- <-]. done.
Qed.

Lemma main_line mode a b c d e o cfg section template output :
  main mode a b c d e o = LineRun cfg section template output →
  mode = "line" ∧ template = c ∧ output = e.
Proof.
  unfold main. repeat case_bool_decide; try done.
  intros [= <- <- <- <-]. done.
Qed.

Lemma argv_at_lookup argv i :
  (i < length argv)%nat → argv !! i = Some (argv_at argv i).
Proof.
  intros Hi. unfold argv_at.
  destruct (lookup_lt_is_Some_2 argv i Hi) as [x ->]. done.
Qed.

(** X25.  Started from the script, the generic minimizer never has an output
    directory: [main] is called without its last argument; and with 6
    arguments the crashing file and the diff file are the same argument. *)
Theorem script_generic_has_no_output argv cfg section template crash_file
    diff_file output :
  script argv
  = GenericRun cfg section template crash_file diff_file output →
  output = None
  ∧ argv !! 1%nat = Some "generic"
  ∧ ((length argv = 6%nat ∧ crash_file = diff_file)
     ∨ (length argv = 7%nat ∧ argv !! 5%nat = Some crash_file
        ∧ argv !! 6%nat = Some diff_file)).
Proof.
  unfold script. intros H.
  destruct (decide (length argv < 6)%nat); [done|].
  destruct (decide (length argv = 6)%nat) as [H6|].
  - apply main_generic in H as (Hm & -> & -> & ->).
    split_and!; [done| |by left].
    rewrite argv_at_lookup by lia. by f_equal.
  - destruct (decide (length argv = 7)%nat) as [H7|]; [|done].
    apply main_generic in H as (Hm & -> & -> & ->).
    split_and!; [done| |right; split_and!; [done|..]; apply argv_at_lookup; lia].
    rewrite argv_at_lookup by lia. by f_equal.
Qed.

Lemma script_generic_has_no_output_witness :
  (None : option string) = None
  ∧ ["minimizer"; "generic"; "cfg"; "target"; "tpl"; "crash"; "diff"]
    !! 1%nat = Some "generic".
Proof.
  destruct (script_generic_has_no_output
              ["minimizer"; "generic"; "cfg"; "target"; "tpl"; "crash"; "diff"]
              "cfg" "target" "tpl" "crash" "diff" None) as (H1 & H2 & _);
    [reflexivity|]. split; [exact H1|exact H2].
Defined.

(** X26.  Started from the script in line mode, the output directory is the
    last argument and the template the fifth; with 7 arguments the sixth is
    not used. *)
Theorem script_line_output argv cfg section template output :
  script argv = LineRun cfg section template output →
  last argv = Some output
  ∧ argv !! 4%nat = Some template
  ∧ argv !! 1%nat = Some "line"
  ∧ (length argv = 6 ∨ length argv = 7)%nat.
Proof.
  unfold script. intros H.
  destruct (decide (length argv < 6)%nat); [done|].
  destruct (decide (length argv = 6)%nat) as [H6|].
  - apply main_line in H as (Hm & -> & ->).
    split_and!; [|apply argv_at_lookup; lia| |by left].
    + rewrite last_lookup, H6. apply argv_at_lookup. lia.
    + rewrite argv_at_lookup by lia. by f_equal.
  - destruct (decide (length argv = 7)%nat) as [H7|]; [|done].
    apply main_line in H as (Hm & -> & ->).
    split_and!; [|apply argv_at_lookup; lia| |by right].
    + rewrite last_lookup, H7. apply argv_at_lookup. lia.
    + rewrite argv_at_lookup by lia. by f_equal.
Qed.

Lemma script_line_output_witness :
  last ["minimizer"; "line"; "cfg"; "target"; "tpl"; "unused"; "out"]
  = Some "out".
Proof.
  destruct (script_line_output
              ["minimizer"; "line"; "cfg"; "target"; "tpl"; "unused"; "out"]
              "cfg" "target" "tpl" "out") as (H & _); [reflexivity|exact H].
Defined.

(** ** A subject that never crashes, in the line minimizer *)


Lemma lines_to_remove_bounds_witness :
  ∃ k, lines_to_remove
         (Sample.world (Sample.always (Some 0)) Sample.with_timeout)
         Sample.line_profile 0 0 40 0 = Ok k
       ∧ 1 ≤ k ≤ Z.max 1 ((40 - 0) * lines_percent Sample.line_profile / 100).
Proof.
  apply (proj1 (lines_to_remove_bounds
                  (Sample.world (Sample.always (Some 0)) Sample.with_timeout)
                  Sample.line_profile 0 0 40 0)); [reflexivity..|simpl; lia|lia].
Defined.
